(** * In-Memoria: the architectural decision detector

    A shallow embedding of [src/utils/architectural-decision-detector.ts]:
    the weighted scorer [assessArchitecturalDecision], the path matcher
    [isArchitecturallySignificantFile], the narrative builder
    [extractDecisionContext] and the fast path [isLikelyArchitectural].

    JavaScript numbers are IEEE 754 binary64 values.  They are modelled with
    the executable specification of binary floating point of the standard
    library ([SpecFloat], precision 53, exponent bound 1024), so that the sums
    and comparisons below round exactly as the program's do. *)

From Stdlib Require Import ZArith QArith Qminmax Qabs List Bool Lia.
From Stdlib Require Import Ascii String DecimalString DecimalNat DecimalPos DecimalZ.
From Stdlib Require Import SpecFloat.
Import ListNotations.

Local Open Scope list_scope.
Local Open Scope string_scope.

(* ================================================================== *)
(** ** JavaScript numbers *)
(* ================================================================== *)

Module Number.

Definition prec : Z := 53%Z.
Definition emax : Z := 1024%Z.

(** A Number value. *)
Definition t : Type := spec_float.

Definition of_Z (z : Z) : t := binary_normalize prec emax z 0%Z false.

(** The value of a decimal literal [n/d]: the binary64 nearest to the
    quotient (ties to even), which is what correctly rounded division of
    the two exactly representable integers yields. *)
Definition of_decimal (n d : Z) : t := SFdiv prec emax (of_Z n) (of_Z d).

(** [x + y] *)
Definition add (x y : t) : t := SFadd prec emax x y.

(** [x >= y]: false as soon as one side is NaN. *)
Definition ge (x y : t) : bool := SFleb y x.

Definition is_nan (x : t) : bool :=
  match x with S754_nan => true | _ => false end.

Definition is_neg_zero (x : t) : bool :=
  match x with S754_zero true => true | _ => false end.

(** [Math.min(x, y)]: NaN if an argument is NaN, and -0 below +0. *)
Definition min (x y : t) : t :=
  if is_nan x || is_nan y then S754_nan
  else match SFcompare x y with
       | Some Lt => x
       | Some Gt => y
       | _ => if is_neg_zero x then x else y
       end.

(** The literals of the program, each evaluated once to the binary64 it
    denotes. *)
Definition lit_0_0 : t := S754_zero false.
Definition lit_1_0 : t := Eval vm_compute in of_Z 1.
Definition lit_0_15 : t := Eval vm_compute in of_decimal 15 100.
Definition lit_0_2 : t := Eval vm_compute in of_decimal 2 10.
Definition lit_0_25 : t := Eval vm_compute in of_decimal 25 100.
Definition lit_0_3 : t := Eval vm_compute in of_decimal 3 10.
Definition lit_0_4 : t := Eval vm_compute in of_decimal 4 10.

(** The rational a finite value denotes ([None] for NaN and infinities). *)
Definition to_Q (x : t) : option Q :=
  match x with
  | S754_zero _ => Some 0%Q
  | S754_finite s m e =>
      let v := match e with
               | Zneg p => Qmake (Zpos m) (2 ^ p)%positive
               | _ => inject_Z (Zpos m * 2 ^ e)
               end in
      Some (if s then Qopp v else v)
  | _ => None
  end.

End Number.

(** Template literals: [`${n}`] for the length of an array, an integer below
    2^32 that is written in decimal digits. *)
Definition string_of_nat (n : nat) : string :=
  NilZero.string_of_uint (Nat.to_uint n).

(** [Number.MAX_SAFE_INTEGER]: up to it every integer is a Number. *)
Definition MAX_SAFE_INTEGER : Z := 9007199254740991%Z.

(** The integer an integral finite Number denotes. *)
Definition Number_to_Z (x : Number.t) : Z :=
  match x with
  | S754_finite s m e =>
      let v := Z.shiftl (Zpos m) e in if s then (- v)%Z else v
  | _ => 0%Z
  end.

(** The decimal digits of an integer, with its sign. *)
Definition decimal (z : Z) : string :=
  NilZero.string_of_int (Z.to_int z).

(** [c] and [v] denote the same Number. *)
Definition same_Number (c v : Z) : bool :=
  SFeqb (Number.of_Z c) (Number.of_Z v).

(** The integer with the fewest significant digits that denotes the same
    Number as [v], the closest to [v] when there are two: digit counts are
    tried from one upwards, [p] being the weight of the last digit kept. *)
Fixpoint shortest (fuel : nat) (v p : Z) : Z :=
  match fuel with
  | O => v
  | S fuel' =>
      let lo := (v / p * p)%Z in
      let hi := (lo + p)%Z in
      let ok_lo := same_Number lo v in
      let ok_hi := same_Number hi v in
      if ok_lo && ok_hi then
        if (v - lo <? hi - v)%Z then lo
        else if (hi - v <? v - lo)%Z then hi
        else if Z.even (v / p) then lo else hi
      else if ok_lo then lo
      else if ok_hi then hi
      else shortest fuel' v (p / 10)%Z
  end.

Fixpoint strip_trailing_zeros (s : string) : string :=
  match s with
  | EmptyString => EmptyString
  | String c s' =>
      match strip_trailing_zeros s' with
      | EmptyString => if Ascii.eqb c "0" then EmptyString else String c EmptyString
      | r => String c r
      end
  end.

(** Exponent notation for the digits of an integer of more than 21 digits. *)
Definition exponential (digits : string) : string :=
  let n := String.length digits in
  match strip_trailing_zeros digits with
  | EmptyString => digits
  | String d EmptyString => String d ("e+" ++ string_of_nat (n - 1))
  | String d rest => String d ("." ++ rest ++ "e+" ++ string_of_nat (n - 1))
  end.

(** [Number::toString] of a positive integral Number of value [v]. *)
Definition toString_positive (v : Z) : string :=
  let n := String.length (decimal v) in
  let digits := decimal (shortest n v (10 ^ Z.of_nat (n - 1))%Z) in
  if (String.length digits <=? 21)%nat then digits else exponential digits.

(** [Number::toString] of an integral Number. *)
Definition toString_integral (x : Number.t) : string :=
  match x with
  | S754_nan => "NaN"
  | S754_infinity s => if s then "-Infinity" else "Infinity"
  | S754_zero _ => "0"
  | S754_finite s _ _ =>
      (if s then "-" else "") ++ toString_positive (Z.abs (Number_to_Z x))
  end.

(** [`${n}`] for a count [n]: the text of the Number an integer stands for,
    the Number nearest to it.  Up to [MAX_SAFE_INTEGER] the integer is that
    Number and the text is its decimal digits. *)
Definition Number_toString (z : Z) : string :=
  if (Z.abs z <=? MAX_SAFE_INTEGER)%Z then decimal z
  else toString_integral (Number.of_Z z).

(** Reading a count back from its digits. *)
Definition read_nat (s : string) : option nat :=
  option_map Nat.of_uint (NilZero.uint_of_string s).

Definition read_Z (s : string) : option Z :=
  option_map Z.of_int (NilZero.int_of_string s).

(* ================================================================== *)
(** ** Data model *)
(* ================================================================== *)

Inductive Scope : Set := file | module | project.

Inductive Recommendation : Set := record | skip | use_project_decision.

Definition Scope_eqb (a b : Scope) : bool :=
  match a, b with
  | file, file | module, module | project, project => true
  | _, _ => false
  end.

Record ChangeAnalysis : Type := {
  affectedFiles : list string;
  affectedConcepts : list string;
  scope : Scope;
  patternChanges : list string;
  dependentsCount : Z;
  breakingChanges : bool;
  configurationChanges : bool
}.
(* [dependentsCount] is a count: an integer [z] stands for the Number
   nearest to it, which is [z] itself up to [MAX_SAFE_INTEGER].  A template
   literal writes it out with [Number_toString]. *)

Record ArchitecturalDecisionCriteria : Type := {
  isArchitectural : bool;
  confidence : Number.t;
  reasons : list string;
  recommendation : Recommendation
}.

(* ================================================================== *)
(** ** assessArchitecturalDecision *)
(* ================================================================== *)

(** The two locals the function updates: the [reasons] array and the running
    [confidence]. *)
Record Locals : Type := {
  l_reasons : list string;
  l_confidence : Number.t
}.

(** [reasons.push(r); confidence += w;] *)
Definition push_reason (r : string) (w : Number.t) (st : Locals) : Locals :=
  {| l_reasons := (l_reasons st ++ [r])%list;
     l_confidence := Number.add (l_confidence st) w |}.

(** The seven [if] statements, in program order. *)
Definition criterion1 (analysis : ChangeAnalysis) (st : Locals) : Locals :=
  if (3 <=? List.length (affectedFiles analysis))%nat
  then push_reason
         ("Affects " ++ string_of_nat (List.length (affectedFiles analysis)) ++ " files")
         Number.lit_0_3 st
  else st.

Definition criterion2 (analysis : ChangeAnalysis) (st : Locals) : Locals :=
  if (10 <=? List.length (affectedConcepts analysis))%nat
  then push_reason
         ("Affects " ++ string_of_nat (List.length (affectedConcepts analysis))
                     ++ " semantic concepts")
         Number.lit_0_25 st
  else st.

Definition criterion3 (analysis : ChangeAnalysis) (st : Locals) : Locals :=
  if Scope_eqb (scope analysis) project
  then push_reason "Project-wide scope detected" Number.lit_0_3 st
  else if Scope_eqb (scope analysis) module
  then push_reason "Module-wide scope detected" Number.lit_0_15 st
  else st.

Definition criterion4 (analysis : ChangeAnalysis) (st : Locals) : Locals :=
  if (5 <=? dependentsCount analysis)%Z
  then push_reason
         ("Affects " ++ Number_toString (dependentsCount analysis) ++ " dependent files")
         Number.lit_0_2 st
  else st.

Definition criterion5 (analysis : ChangeAnalysis) (st : Locals) : Locals :=
  if (0 <? List.length (patternChanges analysis))%nat
  then push_reason
         ("Introduces " ++ string_of_nat (List.length (patternChanges analysis))
                        ++ " pattern changes")
         Number.lit_0_25 st
  else st.

Definition criterion6 (analysis : ChangeAnalysis) (st : Locals) : Locals :=
  if breakingChanges analysis
  then push_reason "Contains breaking changes" Number.lit_0_2 st
  else st.

Definition criterion7 (analysis : ChangeAnalysis) (st : Locals) : Locals :=
  if configurationChanges analysis
  then push_reason "Modifies project configuration" Number.lit_0_15 st
  else st.

(** The locals after the seven criteria: [reasons] and the raw, unclamped
    [confidence]. *)
Definition scored (analysis : ChangeAnalysis) : Locals :=
  let st := {| l_reasons := []; l_confidence := Number.lit_0_0 |} in
  let st := criterion1 analysis st in
  let st := criterion2 analysis st in
  let st := criterion3 analysis st in
  let st := criterion4 analysis st in
  let st := criterion5 analysis st in
  let st := criterion6 analysis st in
  criterion7 analysis st.

Definition rawConfidence (analysis : ChangeAnalysis) : Number.t :=
  l_confidence (scored analysis).

Definition assessArchitecturalDecision (analysis : ChangeAnalysis)
  : ArchitecturalDecisionCriteria :=
  let st := scored analysis in
  let confidence := l_confidence st in
  let isArchitectural := Number.ge confidence Number.lit_0_4 in
  let recommendation :=
    if isArchitectural then record
    else if Number.ge confidence Number.lit_0_2 then use_project_decision
    else skip in
  {| isArchitectural := isArchitectural;
     confidence := Number.min Number.lit_1_0 confidence;
     reasons := l_reasons st;
     recommendation := recommendation |}.

(* ================================================================== *)
(** ** String methods *)
(* ================================================================== *)

(** [s.startsWith(search)] *)
Fixpoint startsWith (s search : string) {struct search} : bool :=
  match search, s with
  | EmptyString, _ => true
  | String c search', String d s' => Ascii.eqb c d && startsWith s' search'
  | String _ _, EmptyString => false
  end.

(** [s.includes(search)]: [search] occurs at some index of [s]. *)
Fixpoint includes (s search : string) : bool :=
  startsWith s search ||
  match s with
  | EmptyString => false
  | String _ s' => includes s' search
  end.

(** [s.endsWith(search)]: the [search.length] units that end [s] are
    [search]. *)
Definition endsWith (s search : string) : bool :=
  let n := String.length s in
  let k := String.length search in
  if (k <=? n)%nat then String.eqb (substring (n - k) k s) search else false.

(** [l.join(sep)] *)
Fixpoint join (sep : string) (l : list string) : string :=
  match l with
  | [] => ""
  | [x] => x
  | x :: rest => x ++ sep ++ join sep rest
  end.

(* ================================================================== *)
(** ** isArchitecturallySignificantFile *)
(* ================================================================== *)

Definition architecturalIndicators : list string :=
  [ (* Configuration files *)
    "package.json"; "tsconfig.json"; "Cargo.toml"; "go.mod"; "pom.xml";
    "build.gradle"; "pyproject.toml";
    (* Entry points *)
    "main.ts"; "main.js"; "index.ts"; "index.js"; "app.py"; "main.rs";
    "main.go";
    (* Architecture files *)
    "architecture.md"; "adr/"; "docs/architecture";
    (* Core infrastructure *)
    "src/core/"; "src/infrastructure/"; "src/framework/"; "lib/core/" ].

Definition isArchitecturallySignificantFile (filePath : string) : bool :=
  existsb
    (fun indicator => includes filePath indicator || endsWith filePath indicator)
    architecturalIndicators.

(* ================================================================== *)
(** ** extractDecisionContext *)
(* ================================================================== *)

Record DecisionContext : Type := {
  decisionContext : string;
  suggestedRationale : string;
  suggestedAlternatives : list (string * string)
}.

Definition extractDecisionContext (analysis : ChangeAnalysis) : DecisionContext :=
  let suggestedAlternatives := [] in
  if (0 <? List.length (patternChanges analysis))%nat then
    {| decisionContext :=
         "Adopted " ++ join ", " (patternChanges analysis) ++ " pattern(s)";
       suggestedRationale :=
         "Pattern detected across "
           ++ string_of_nat (List.length (affectedFiles analysis)) ++ " files";
       suggestedAlternatives := suggestedAlternatives |}
  else if Scope_eqb (scope analysis) project then
    {| decisionContext :=
         "Project-wide change affecting "
           ++ string_of_nat (List.length (affectedFiles analysis)) ++ " files";
       suggestedRationale :=
         "Change impacts multiple modules and "
           ++ string_of_nat (List.length (affectedConcepts analysis)) ++ " concepts";
       suggestedAlternatives := suggestedAlternatives |}
  else if breakingChanges analysis then
    {| decisionContext := "Breaking change introduced";
       suggestedRationale :=
         "Change affects "
           ++ Number_toString (dependentsCount analysis) ++ " dependent files";
       suggestedAlternatives := suggestedAlternatives |}
  else
    {| decisionContext :=
         "Structural change affecting "
           ++ string_of_nat (List.length (affectedFiles analysis)) ++ " files";
       suggestedRationale :=
         "Change impacts "
           ++ string_of_nat (List.length (affectedConcepts analysis))
           ++ " semantic concepts";
       suggestedAlternatives := suggestedAlternatives |}.

(* ================================================================== *)
(** ** isLikelyArchitectural *)
(* ================================================================== *)

(** [Partial<ChangeAnalysis>]: every property may be missing; reading a
    missing property gives [undefined], here [None]. *)
Module Partial.

Record ChangeAnalysis : Type := {
  affectedFiles : option (list string);
  affectedConcepts : option (list string);
  scope : option Scope;
  patternChanges : option (list string);
  dependentsCount : option Z;
  breakingChanges : option bool;
  configurationChanges : option bool
}.

End Partial.

(** How an expression completes: with a value, or by throwing. *)
Inductive completion (A : Type) : Type :=
  | Normal (a : A)
  | Throw (error : string).
Arguments Normal {A} a.
Arguments Throw {A} error.

Definition bind {A B : Type} (c : completion A) (k : A -> completion B)
  : completion B :=
  match c with
  | Normal a => k a
  | Throw e => Throw e
  end.

Notation "x <- c ;; k" := (bind c (fun x => k))
  (at level 61, c at next level, right associativity).

(** [ToBoolean] of the values a property of the record can hold: [undefined]
    is falsy, an array is truthy whatever its length, a number is truthy
    unless it is zero. *)
Definition truthy_array (v : option (list string)) : bool :=
  match v with Some _ => true | None => false end.

Definition truthy_number (v : option Z) : bool :=
  match v with Some z => negb (z =? 0)%Z | None => false end.

Definition truthy_boolean (v : option bool) : bool :=
  match v with Some b => b | None => false end.

(** [v.length]: a [TypeError] when [v] is [undefined]. *)
Definition get_length (v : option (list string)) : completion nat :=
  match v with
  | Some l => Normal (List.length l)
  | None => Throw "TypeError: Cannot read properties of undefined (reading 'length')"
  end.

(** [v >= n] for a property holding a number; [undefined >= n] compares NaN
    and is false. *)
Definition number_ge (v : option Z) (n : Z) : bool :=
  match v with Some z => (n <=? z)%Z | None => false end.

(** [v === s] for the [scope] property. *)
Definition scope_strict_eq (v : option Scope) (s : Scope) : bool :=
  match v with Some s' => Scope_eqb s' s | None => false end.

(** [a && b] and [a || b], by the truthiness of their value: the right
    operand is evaluated only when the left one does not decide, so a throw
    in a skipped operand is not raised. *)
Definition js_and (a : completion bool) (b : completion bool) : completion bool :=
  x <- a ;; if x then b else Normal false.

Definition js_or (a : completion bool) (b : completion bool) : completion bool :=
  x <- a ;; if x then Normal true else b.

Infix "&&&" := js_and (at level 40, left associativity).
Infix "|||" := js_or (at level 50, left associativity).

(** The completion of [!!( ... )], as the truthiness of the disjunction. *)
Definition isLikelyArchitectural (analysis : Partial.ChangeAnalysis)
  : completion bool :=
  (Normal (truthy_array (Partial.affectedFiles analysis))
     &&& (n <- get_length (Partial.affectedFiles analysis) ;; Normal (3 <=? n)%nat))
  ||| (Normal (truthy_array (Partial.affectedConcepts analysis))
     &&& (n <- get_length (Partial.affectedConcepts analysis) ;; Normal (10 <=? n)%nat))
  ||| Normal (scope_strict_eq (Partial.scope analysis) project)
  ||| (Normal (truthy_number (Partial.dependentsCount analysis))
     &&& Normal (number_ge (Partial.dependentsCount analysis) 5))
  ||| (Normal (truthy_array (Partial.patternChanges analysis))
     &&& (n <- get_length (Partial.patternChanges analysis) ;; Normal (0 <? n)%nat))
  ||| Normal (truthy_boolean (Partial.breakingChanges analysis)).

(** A complete record seen as a partial one: every property present. *)
Definition asPartial (analysis : ChangeAnalysis) : Partial.ChangeAnalysis :=
  {| Partial.affectedFiles := Some (affectedFiles analysis);
     Partial.affectedConcepts := Some (affectedConcepts analysis);
     Partial.scope := Some (scope analysis);
     Partial.patternChanges := Some (patternChanges analysis);
     Partial.dependentsCount := Some (dependentsCount analysis);
     Partial.breakingChanges := Some (breakingChanges analysis);
     Partial.configurationChanges := Some (configurationChanges analysis) |}.

(* ================================================================== *)
(** ** The criteria table of the specification *)
(* ================================================================== *)

(** One row of the table: the trigger, the listed decimal weight and the
    reason text for a given input. *)
Record Criterion : Type := {
  c_trigger : ChangeAnalysis -> bool;
  c_weight : Q;
  c_reason : ChangeAnalysis -> string
}.

(** The rows in the order of the table: 1, 2, 3a, 3b, 4, 5, 6, 7. *)
Definition criteriaTable : list Criterion :=
  [ {| c_trigger := fun a => (3 <=? List.length (affectedFiles a))%nat;
       c_weight := 0.30%Q;
       c_reason := fun a =>
         "Affects " ++ string_of_nat (List.length (affectedFiles a)) ++ " files" |};
    {| c_trigger := fun a => (10 <=? List.length (affectedConcepts a))%nat;
       c_weight := 0.25%Q;
       c_reason := fun a =>
         "Affects " ++ string_of_nat (List.length (affectedConcepts a))
                    ++ " semantic concepts" |};
    {| c_trigger := fun a => Scope_eqb (scope a) project;
       c_weight := 0.30%Q;
       c_reason := fun _ => "Project-wide scope detected" |};
    {| c_trigger := fun a =>
         negb (Scope_eqb (scope a) project) && Scope_eqb (scope a) module;
       c_weight := 0.15%Q;
       c_reason := fun _ => "Module-wide scope detected" |};
    {| c_trigger := fun a => (5 <=? dependentsCount a)%Z;
       c_weight := 0.20%Q;
       c_reason := fun a =>
         "Affects " ++ Number_toString (dependentsCount a) ++ " dependent files" |};
    {| c_trigger := fun a => negb (Nat.eqb (List.length (patternChanges a)) 0);
       c_weight := 0.25%Q;
       c_reason := fun a =>
         "Introduces " ++ string_of_nat (List.length (patternChanges a))
                       ++ " pattern changes" |};
    {| c_trigger := fun a => breakingChanges a;
       c_weight := 0.20%Q;
       c_reason := fun _ => "Contains breaking changes" |};
    {| c_trigger := fun a => configurationChanges a;
       c_weight := 0.15%Q;
       c_reason := fun _ => "Modifies project configuration" |} ].

(** The Number a listed decimal weight denotes. *)
Definition Number_of_Q (q : Q) : Number.t :=
  Number.of_decimal (Qnum q) (Zpos (Qden q)).

(** The rows that trigger on an input, in table order. *)
Definition triggered (a : ChangeAnalysis) : list Criterion :=
  filter (fun c => c_trigger c a) criteriaTable.

(** Running the table: each triggered row, in order, appends its reason and
    adds its weight to the running sum. *)
Definition runTable (a : ChangeAnalysis) : Locals :=
  fold_left
    (fun st c => push_reason (c_reason c a) (Number_of_Q (c_weight c)) st)
    (triggered a)
    {| l_reasons := []; l_confidence := Number.lit_0_0 |}.

(** The exact sum of the listed weights of the triggered rows. *)
Definition listedSum (a : ChangeAnalysis) : Q :=
  fold_left (fun q c => (q + c_weight c)%Q) (triggered a) 0%Q.

(** The rank of a recommendation: skip < use_project_decision < record. *)
Definition rank (r : Recommendation) : nat :=
  match r with
  | skip => 0
  | use_project_decision => 1
  | record => 2
  end.

(* ================================================================== *)
(** ** Which criteria trigger *)
(* ================================================================== *)

(** The outcome of the seven tests on an input.  The running sum and the
    verdict depend on the input through this vector only. *)
Record Triggers : Type := {
  on_files : bool;
  on_concepts : bool;
  on_scope : Scope;
  on_dependents : bool;
  on_patterns : bool;
  on_breaking : bool;
  on_configuration : bool
}.

Definition triggersOf (a : ChangeAnalysis) : Triggers :=
  {| on_files := (3 <=? List.length (affectedFiles a))%nat;
     on_concepts := (10 <=? List.length (affectedConcepts a))%nat;
     on_scope := scope a;
     on_dependents := (5 <=? dependentsCount a)%Z;
     on_patterns := (0 <? List.length (patternChanges a))%nat;
     on_breaking := breakingChanges a;
     on_configuration := configurationChanges a |}.

(** The running [confidence] after the seven additions, in program order. *)
Definition rawOf (t : Triggers) : Number.t :=
  let x := Number.lit_0_0 in
  let x := if on_files t then Number.add x Number.lit_0_3 else x in
  let x := if on_concepts t then Number.add x Number.lit_0_25 else x in
  let x := match on_scope t with
           | project => Number.add x Number.lit_0_3
           | module => Number.add x Number.lit_0_15
           | file => x
           end in
  let x := if on_dependents t then Number.add x Number.lit_0_2 else x in
  let x := if on_patterns t then Number.add x Number.lit_0_25 else x in
  let x := if on_breaking t then Number.add x Number.lit_0_2 else x in
  if on_configuration t then Number.add x Number.lit_0_15 else x.

(** The exact sum of the listed weights, in table order. *)
Definition sumOf (t : Triggers) : Q :=
  let q := 0%Q in
  let q := if on_files t then (q + 0.30)%Q else q in
  let q := if on_concepts t then (q + 0.25)%Q else q in
  let q := match on_scope t with
           | project => (q + 0.30)%Q
           | module => (q + 0.15)%Q
           | file => q
           end in
  let q := if on_dependents t then (q + 0.20)%Q else q in
  let q := if on_patterns t then (q + 0.25)%Q else q in
  let q := if on_breaking t then (q + 0.20)%Q else q in
  if on_configuration t then (q + 0.15)%Q else q.

(** How many criteria trigger. *)
Definition countOf (t : Triggers) : nat :=
  Nat.b2n (on_files t) + Nat.b2n (on_concepts t)
  + match on_scope t with file => 0 | _ => 1 end
  + Nat.b2n (on_dependents t) + Nat.b2n (on_patterns t)
  + Nat.b2n (on_breaking t) + Nat.b2n (on_configuration t).

(** The verdict computed from a running sum. *)
Definition verdictOf (x : Number.t) : Recommendation :=
  if Number.ge x Number.lit_0_4 then record
  else if Number.ge x Number.lit_0_2 then use_project_decision
  else skip.

Definition scope_rank (s : Scope) : nat :=
  match s with file => 0 | module => 1 | project => 2 end.

(** Pointwise order on trigger vectors. *)
Definition Triggers_leb (u v : Triggers) : bool :=
  implb (on_files u) (on_files v)
  && implb (on_concepts u) (on_concepts v)
  && (scope_rank (on_scope u) <=? scope_rank (on_scope v))%nat
  && implb (on_dependents u) (on_dependents v)
  && implb (on_patterns u) (on_patterns v)
  && implb (on_breaking u) (on_breaking v)
  && implb (on_configuration u) (on_configuration v).

Definition allTriggers : list Triggers :=
  flat_map (fun f => flat_map (fun c => flat_map (fun s =>
  flat_map (fun d => flat_map (fun p => flat_map (fun b =>
  map (fun g => Build_Triggers f c s d p b g) [false; true])
  [false; true]) [false; true]) [false; true])
  [file; module; project]) [false; true]) [false; true].

Definition Triggers_eqb (u v : Triggers) : bool :=
  Bool.eqb (on_files u) (on_files v)
  && Bool.eqb (on_concepts u) (on_concepts v)
  && Scope_eqb (on_scope u) (on_scope v)
  && Bool.eqb (on_dependents u) (on_dependents v)
  && Bool.eqb (on_patterns u) (on_patterns v)
  && Bool.eqb (on_breaking u) (on_breaking v)
  && Bool.eqb (on_configuration u) (on_configuration v).

(** The value of a Number lies in the unit interval. *)
Definition in_unit_interval (x : Number.t) : bool :=
  match Number.to_Q x with
  | Some q => Qle_bool 0 q && Qle_bool q 1
  | None => false
  end.

(** The order on inputs under which the scorer is monotone: no count, no
    scope and no flag decreases. *)
Definition analysis_le (a b : ChangeAnalysis) : Prop :=
  (List.length (affectedFiles a) <= List.length (affectedFiles b))%nat
  /\ (List.length (affectedConcepts a) <= List.length (affectedConcepts b))%nat
  /\ (scope_rank (scope a) <= scope_rank (scope b))%nat
  /\ (List.length (patternChanges a) <= List.length (patternChanges b))%nat
  /\ (dependentsCount a <= dependentsCount b)%Z
  /\ (breakingChanges a = true -> breakingChanges b = true)
  /\ (configurationChanges a = true -> configurationChanges b = true).

(** The comparisons of the program on the rounded sum decide as the same
    comparisons on the exact sum of the listed weights. *)
Definition thresholds_check (t : Triggers) : bool :=
  Bool.eqb (Number.ge (rawOf t) Number.lit_0_4) (Qle_bool 0.4 (sumOf t))
  && Bool.eqb (Number.ge (rawOf t) Number.lit_0_2) (Qle_bool 0.2 (sumOf t))
  && implb (SFeqb (rawOf t) Number.lit_0_4) (Number.ge (rawOf t) Number.lit_0_4)
  && implb (SFeqb (rawOf t) Number.lit_0_2)
       (Number.ge (rawOf t) Number.lit_0_2
        && negb (Number.ge (rawOf t) Number.lit_0_4))
  && implb (SFltb (rawOf t) Number.lit_0_2)
       (negb (Number.ge (rawOf t) Number.lit_0_2)
        && negb (Number.ge (rawOf t) Number.lit_0_4)).

(** The clamped value is a number of the unit interval. *)
Definition clamp_check (t : Triggers) : bool :=
  let c := Number.min Number.lit_1_0 (rawOf t) in
  in_unit_interval c && Number.ge c Number.lit_0_0 && Number.ge Number.lit_1_0 c
  && match Number.to_Q c, Number.to_Q (rawOf t) with
     | Some q, Some r => Qeq_bool q (if Qle_bool 1 r then 1 else r)
     | _, _ => false
     end.

(** What the scorer derives from a trigger vector: the raw sum, the clamped
    sum and the rank of the verdict. *)
Record Scored : Type := {
  sc_triggers : Triggers;
  sc_raw : Number.t;
  sc_confidence : Number.t;
  sc_rank : nat
}.

Definition scoredOf (t : Triggers) : Scored :=
  {| sc_triggers := t;
     sc_raw := rawOf t;
     sc_confidence := Number.min Number.lit_1_0 (rawOf t);
     sc_rank := rank (verdictOf (rawOf t)) |}.

(** Between two comparable trigger vectors neither the raw sum, nor the
    clamped one, nor the verdict goes down. *)
Definition monotone_check (u v : Scored) : bool :=
  implb (Triggers_leb (sc_triggers u) (sc_triggers v))
    (Number.ge (sc_raw v) (sc_raw u)
     && Number.ge (sc_confidence v) (sc_confidence u)
     && (sc_rank u <=? sc_rank v)%nat).

Definition allScored : list Scored := map scoredOf allTriggers.

(** [ind] occurs somewhere in [path]. *)
Definition IsSubstring (ind path : string) : Prop :=
  exists pre post : string, path = pre ++ ind ++ post.

(** [path] ends with [ind]. *)
Definition IsSuffix (ind path : string) : Prop :=
  exists pre : string, path = pre ++ ind.

(** The matcher with the suffix test left out. *)
Definition containsIndicator (filePath : string) : bool :=
  existsb (fun indicator => includes filePath indicator) architecturalIndicators.

(** The four branches of the narrative, in priority order. *)
Inductive Branch : Set :=
  | PatternAdoption
  | ProjectWide
  | BreakingChange
  | StructuralChange.

(** The priority chain of the specification. *)
Definition selectedBranch (a : ChangeAnalysis) : Branch :=
  match patternChanges a with
  | _ :: _ => PatternAdoption
  | [] =>
      match scope a with
      | project => ProjectWide
      | _ => if breakingChanges a then BreakingChange else StructuralChange
      end
  end.

(** The branch a decision context was written by, read off its opening
    words. *)
Definition branchOfContext (ctx : string) : option Branch :=
  if startsWith ctx "Adopted " then Some PatternAdoption
  else if startsWith ctx "Project-wide change affecting " then Some ProjectWide
  else if String.eqb ctx "Breaking change introduced" then Some BreakingChange
  else if startsWith ctx "Structural change affecting " then Some StructuralChange
  else None.

(** The clauses of the fast path, on a record whose properties may be
    missing. *)
Definition fastPathClauses (p : Partial.ChangeAnalysis) : Prop :=
  (exists l, Partial.affectedFiles p = Some l /\ (3 <= List.length l)%nat)
  \/ (exists l, Partial.affectedConcepts p = Some l /\ (10 <= List.length l)%nat)
  \/ Partial.scope p = Some project
  \/ (exists z, Partial.dependentsCount p = Some z /\ (5 <= z)%Z)
  \/ (exists l, Partial.patternChanges p = Some l /\ l <> [])
  \/ Partial.breakingChanges p = Some true.

(** Building an input record, properties in the order [affectedFiles],
    [affectedConcepts], [scope], [patternChanges], [dependentsCount],
    [breakingChanges], [configurationChanges]. *)
Definition mkAnalysis (f c : list string) (s : Scope) (p : list string) (d : Z)
    (b g : bool) : ChangeAnalysis :=
  {| affectedFiles := f; affectedConcepts := c; scope := s; patternChanges := p;
     dependentsCount := d; breakingChanges := b; configurationChanges := g |}.

(* ================================================================== *)
(** ** Further checks on trigger vectors *)
(* ================================================================== *)

(** One criterion never reaches the threshold, three always do, and a verdict
    other than skip has a reason. *)
Definition count_check (t : Triggers) : bool :=
  implb (Number.ge (rawOf t) Number.lit_0_4) (2 <=? countOf t)%nat
  && implb (3 <=? countOf t)%nat (Number.ge (rawOf t) Number.lit_0_4)
  && implb (Number.ge (rawOf t) Number.lit_0_2) (1 <=? countOf t)%nat.

(** Nothing triggers but, at most, module scope alone or the configuration
    flag alone. *)
Definition quiet (t : Triggers) : bool :=
  negb (on_files t) && negb (on_concepts t) && negb (on_dependents t)
  && negb (on_patterns t) && negb (on_breaking t)
  && match on_scope t with
     | file => true
     | module => negb (on_configuration t)
     | project => false
     end.

Definition quiet_check (t : Triggers) : bool :=
  Bool.eqb (negb (Number.ge (rawOf t) Number.lit_0_2)) (quiet t)
  && implb (Number.ge (rawOf t) Number.lit_0_4) (Number.ge (rawOf t) Number.lit_0_2).

(** The reported confidence is within 10^-15 of the exact score
    [min(1, sum of the listed weights)]. *)
Definition accuracy_check (t : Triggers) : bool :=
  match Number.to_Q (Number.min Number.lit_1_0 (rawOf t)) with
  | Some q =>
      Qle_bool (Qabs (q - Qmin 1 (sumOf t))) (1 # 1000000000000000)
  | None => false
  end.

(** A clause of the fast path holds. *)
Definition fast (t : Triggers) : bool :=
  on_files t || on_concepts t || Scope_eqb (on_scope t) project
  || on_dependents t || on_patterns t || on_breaking t.

Definition fast_check (t : Triggers) : bool :=
  implb (fast t) (Number.ge (rawOf t) Number.lit_0_2 && (1 <=? countOf t)%nat).

(** [q] has every property [p] has, with the same value. *)
Definition fills (p q : Partial.ChangeAnalysis) : Prop :=
  (forall l, Partial.affectedFiles p = Some l -> Partial.affectedFiles q = Some l)
  /\ (forall l, Partial.affectedConcepts p = Some l ->
                Partial.affectedConcepts q = Some l)
  /\ (forall s, Partial.scope p = Some s -> Partial.scope q = Some s)
  /\ (forall l, Partial.patternChanges p = Some l ->
                Partial.patternChanges q = Some l)
  /\ (forall z, Partial.dependentsCount p = Some z ->
                Partial.dependentsCount q = Some z)
  /\ (forall b, Partial.breakingChanges p = Some b ->
                Partial.breakingChanges q = Some b).

(** Two inputs with the same counts, scope and flags. *)
Definition same_counts (a b : ChangeAnalysis) : Prop :=
  List.length (affectedFiles a) = List.length (affectedFiles b)
  /\ List.length (affectedConcepts a) = List.length (affectedConcepts b)
  /\ scope a = scope b
  /\ List.length (patternChanges a) = List.length (patternChanges b)
  /\ dependentsCount a = dependentsCount b
  /\ breakingChanges a = breakingChanges b
  /\ configurationChanges a = configurationChanges b.

(* ================================================================== *)
(** ** Logger *)
(* ================================================================== *)

(** The logging utility: four entry points that format a message with its
    level and hand it to [console.log] (standard output) or [console.error]
    (standard error), depending on the level and on the environment read at
    the time of the call. *)
Module Logger.

Inductive LogLevel : Set := INFO | WARN | ERROR | DEBUG.

(** The string a level is at run time. *)
Definition levelName (logLevel : LogLevel) : string :=
  match logLevel with
  | INFO => "INFO"
  | WARN => "WARN"
  | ERROR => "ERROR"
  | DEBUG => "DEBUG"
  end.

Definition LogLevel_eqb (a b : LogLevel) : bool :=
  match a, b with
  | INFO, INFO | WARN, WARN | ERROR, ERROR | DEBUG, DEBUG => true
  | _, _ => false
  end.

(** [process.env]: a variable holds a string or is [undefined]. *)
Definition Env : Type := string -> option string.

(** [process.env.NAME === value] *)
Definition env_is (env : Env) (name value : string) : bool :=
  match env name with
  | Some v => String.eqb v value
  | None => false
  end.

Section Console.

(** The values passed along with a message. *)
Variable Arg : Type.

(** One call of a console method: the formatted message, then the additional
    arguments. *)
Record Call : Type := {
  call_message : string;
  call_arguments : list Arg
}.

(** The calls [console.log] and [console.error] have received, oldest
    first. *)
Record Console : Type := {
  console_log : list Call;
  console_error : list Call
}.

Definition isMCPServer (env : Env) : bool :=
  env_is env "MCP_SERVER" "true".

Definition formatMessage (logLevel : LogLevel) (message : string) : string :=
  "[" ++ levelName logLevel ++ "] " ++ message.

Definition shouldUseStdout (env : Env) (logLevel : LogLevel) : bool :=
  if isMCPServer env then env_is env "MCP_LOG_STREAM" "stdout" else true.

Definition emit (env : Env) (logLevel : LogLevel) (message : string)
    (additionalArguments : list Arg) (console : Console) : Console :=
  if LogLevel_eqb logLevel DEBUG && negb (env_is env "DEBUG" "true") then console
  else
    let formattedMessage := formatMessage logLevel message in
    let isErrorLevel := LogLevel_eqb logLevel ERROR in
    let logToStdout := negb isErrorLevel && shouldUseStdout env logLevel in
    let call := {| call_message := formattedMessage;
                   call_arguments := additionalArguments |} in
    if logToStdout
    then {| console_log := (console_log console ++ [call])%list;
            console_error := console_error console |}
    else {| console_log := console_log console;
            console_error := (console_error console ++ [call])%list |}.

Definition error (env : Env) (message : string) (additionalArguments : list Arg)
  : Console -> Console :=
  emit env ERROR message additionalArguments.

Definition info (env : Env) (message : string) (additionalArguments : list Arg)
  : Console -> Console :=
  emit env INFO message additionalArguments.

Definition warn (env : Env) (message : string) (additionalArguments : list Arg)
  : Console -> Console :=
  emit env WARN message additionalArguments.

Definition debug (env : Env) (message : string) (additionalArguments : list Arg)
  : Console -> Console :=
  emit env DEBUG message additionalArguments.

(** A use of the logger: the environment at the time of the call, the entry
    point (by its level), the message and the arguments. *)
Record Use : Type := {
  use_env : Env;
  use_level : LogLevel;
  use_message : string;
  use_arguments : list Arg
}.

(** The entry point of a level. *)
Definition entry (logLevel : LogLevel)
  : Env -> string -> list Arg -> Console -> Console :=
  match logLevel with
  | ERROR => error
  | INFO => info
  | WARN => warn
  | DEBUG => debug
  end.

(** A program's uses of the logger, run in order. *)
Definition run (uses : list Use) (console : Console) : Console :=
  fold_left
    (fun c u => entry (use_level u) (use_env u) (use_message u) (use_arguments u) c)
    uses console.

(** The environment keeps standard output for the protocol: server mode, and
    no opt-in to logging on standard output. *)
Definition keepsStdoutClean (env : Env) : bool :=
  isMCPServer env && negb (env_is env "MCP_LOG_STREAM" "stdout").

(** Whether a use writes anything: a debug message only when debugging is
    on. *)
Definition isEmitted (u : Use) : bool :=
  negb (LogLevel_eqb (use_level u) DEBUG) || env_is (use_env u) "DEBUG" "true".

(** The call a use makes when it is emitted. *)
Definition callOf (u : Use) : Call :=
  {| call_message := formatMessage (use_level u) (use_message u);
     call_arguments := use_arguments u |}.

(** Whether an emitted use goes to standard output: not an error, and the
    process is no server or has opted in. *)
Definition toStdout (u : Use) : bool :=
  isEmitted u
  && negb (LogLevel_eqb (use_level u) ERROR)
  && (negb (isMCPServer (use_env u))
      || env_is (use_env u) "MCP_LOG_STREAM" "stdout").

Definition toStderr (u : Use) : bool :=
  isEmitted u && negb (toStdout u).

End Console.

Arguments callOf {Arg} u.
Arguments toStdout {Arg} u.
Arguments toStderr {Arg} u.
Arguments call_message {Arg} _.
Arguments call_arguments {Arg} _.
Arguments console_log {Arg} _.
Arguments console_error {Arg} _.
Arguments emit {Arg} env logLevel message additionalArguments console.
Arguments error {Arg} env message additionalArguments _.
Arguments info {Arg} env message additionalArguments _.
Arguments warn {Arg} env message additionalArguments _.
Arguments debug {Arg} env message additionalArguments _.
Arguments entry {Arg} logLevel _ _ _ _.
Arguments run {Arg} uses console.
Arguments use_env {Arg} _.
Arguments use_level {Arg} _.
Arguments use_message {Arg} _.
Arguments use_arguments {Arg} _.
Arguments isEmitted {Arg} u.

End Logger.

(* ================================================================== *)
(** * Properties *)
(* ================================================================== *)

(** ** The literals *)

Lemma lit_0_15_value : Number.lit_0_15 = S754_finite false 5404319552844595 (-55).
Proof. vm_compute. reflexivity. Qed.

Lemma lit_0_2_value : Number.lit_0_2 = S754_finite false 7205759403792794 (-55).
Proof. vm_compute. reflexivity. Qed.

Lemma lit_0_25_value : Number.lit_0_25 = S754_finite false 4503599627370496 (-54).
Proof. vm_compute. reflexivity. Qed.

Lemma lit_0_3_value : Number.lit_0_3 = S754_finite false 5404319552844595 (-54).
Proof. vm_compute. reflexivity. Qed.

Lemma lit_0_4_value : Number.lit_0_4 = S754_finite false 7205759403792794 (-54).
Proof. vm_compute. reflexivity. Qed.

Lemma lit_1_0_value : Number.lit_1_0 = S754_finite false 4503599627370496 (-52).
Proof. vm_compute. reflexivity. Qed.

(** The listed weights, read as Numbers, are the program's literals. *)
Lemma weight_0_30 : Number_of_Q 0.30 = Number.lit_0_3.
Proof. vm_compute. reflexivity. Qed.

Lemma weight_0_25 : Number_of_Q 0.25 = Number.lit_0_25.
Proof. vm_compute. reflexivity. Qed.

Lemma weight_0_20 : Number_of_Q 0.20 = Number.lit_0_2.
Proof. vm_compute. reflexivity. Qed.

Lemma weight_0_15 : Number_of_Q 0.15 = Number.lit_0_15.
Proof. vm_compute. reflexivity. Qed.

(** ** The scorer runs the table *)

Lemma patterns_trigger (l : list string) :
  negb (Nat.eqb (List.length l) 0) = (0 <? List.length l)%nat.
Proof. destruct l; reflexivity. Qed.

Ltac unfold_criteria :=
  unfold scored, criterion1, criterion2, criterion3, criterion4, criterion5,
    criterion6, criterion7.

Lemma fold_filter_cons {A B : Type} (f : B -> A -> B) (p : A -> bool)
    (x : A) (l : list A) (st : B) :
  fold_left f (filter p (x :: l)) st
  = fold_left f (filter p l) (if p x then f st x else st).
Proof. simpl. destruct (p x); reflexivity. Qed.

Lemma runTable_scored (a : ChangeAnalysis) : runTable a = scored a.
Proof.
  unfold runTable, triggered, criteriaTable.
  rewrite !fold_filter_cons.
  cbn [filter fold_left c_trigger c_weight c_reason].
  rewrite weight_0_30, weight_0_25, weight_0_20, weight_0_15, patterns_trigger.
  unfold_criteria.
  destruct (scope a); reflexivity.
Qed.

(** ** The sum and the verdict as functions of the trigger vector *)

Lemma conf_criterion1 (a : ChangeAnalysis) (st : Locals) :
  l_confidence (criterion1 a st)
  = if on_files (triggersOf a)
    then Number.add (l_confidence st) Number.lit_0_3 else l_confidence st.
Proof. unfold criterion1, triggersOf; cbn [on_files]. destruct (_ <=? _)%nat; reflexivity. Qed.

Lemma conf_criterion2 (a : ChangeAnalysis) (st : Locals) :
  l_confidence (criterion2 a st)
  = if on_concepts (triggersOf a)
    then Number.add (l_confidence st) Number.lit_0_25 else l_confidence st.
Proof. unfold criterion2, triggersOf; cbn [on_concepts]. destruct (_ <=? _)%nat; reflexivity. Qed.

Lemma conf_criterion3 (a : ChangeAnalysis) (st : Locals) :
  l_confidence (criterion3 a st)
  = match on_scope (triggersOf a) with
    | project => Number.add (l_confidence st) Number.lit_0_3
    | module => Number.add (l_confidence st) Number.lit_0_15
    | file => l_confidence st
    end.
Proof. unfold criterion3, triggersOf; cbn [on_scope]. destruct (scope a); reflexivity. Qed.

Lemma conf_criterion4 (a : ChangeAnalysis) (st : Locals) :
  l_confidence (criterion4 a st)
  = if on_dependents (triggersOf a)
    then Number.add (l_confidence st) Number.lit_0_2 else l_confidence st.
Proof. unfold criterion4, triggersOf; cbn [on_dependents]. destruct (_ <=? _)%Z; reflexivity. Qed.

Lemma conf_criterion5 (a : ChangeAnalysis) (st : Locals) :
  l_confidence (criterion5 a st)
  = if on_patterns (triggersOf a)
    then Number.add (l_confidence st) Number.lit_0_25 else l_confidence st.
Proof. unfold criterion5, triggersOf; cbn [on_patterns]. destruct (_ <? _)%nat; reflexivity. Qed.

Lemma conf_criterion6 (a : ChangeAnalysis) (st : Locals) :
  l_confidence (criterion6 a st)
  = if on_breaking (triggersOf a)
    then Number.add (l_confidence st) Number.lit_0_2 else l_confidence st.
Proof. unfold criterion6, triggersOf; cbn [on_breaking]. destruct (breakingChanges a); reflexivity. Qed.

Lemma conf_criterion7 (a : ChangeAnalysis) (st : Locals) :
  l_confidence (criterion7 a st)
  = if on_configuration (triggersOf a)
    then Number.add (l_confidence st) Number.lit_0_15 else l_confidence st.
Proof.
  unfold criterion7, triggersOf; cbn [on_configuration].
  destruct (configurationChanges a); reflexivity.
Qed.

Lemma rawConfidence_triggers (a : ChangeAnalysis) :
  rawConfidence a = rawOf (triggersOf a).
Proof.
  unfold rawConfidence, scored, rawOf.
  rewrite conf_criterion7, conf_criterion6, conf_criterion5, conf_criterion4,
    conf_criterion3, conf_criterion2, conf_criterion1.
  reflexivity.
Qed.

Lemma listedSum_triggers (a : ChangeAnalysis) :
  listedSum a = sumOf (triggersOf a).
Proof.
  unfold listedSum, triggered, criteriaTable.
  rewrite !fold_filter_cons.
  cbn [filter fold_left c_trigger c_weight].
  rewrite patterns_trigger.
  unfold sumOf, triggersOf.
  cbn [on_files on_concepts on_scope on_dependents on_patterns on_breaking
       on_configuration].
  destruct (scope a); reflexivity.
Qed.

Lemma length_push_fold (a : ChangeAnalysis) (l : list Criterion) (st : Locals) :
  List.length (l_reasons
    (fold_left
       (fun st c => push_reason (c_reason c a) (Number_of_Q (c_weight c)) st)
       l st))
  = (List.length (l_reasons st) + List.length l)%nat.
Proof.
  revert st. induction l as [|c l IH]; intros st; simpl.
  - lia.
  - rewrite IH. unfold push_reason; simpl. rewrite length_app. simpl. lia.
Qed.

Lemma length_filter_cons {A : Type} (p : A -> bool) (x : A) (l : list A) :
  List.length (filter p (x :: l))
  = (Nat.b2n (p x) + List.length (filter p l))%nat.
Proof. simpl. destruct (p x); reflexivity. Qed.

Lemma triggered_count (a : ChangeAnalysis) :
  List.length (triggered a) = countOf (triggersOf a).
Proof.
  unfold triggered, criteriaTable, countOf, triggersOf.
  rewrite !length_filter_cons.
  cbn [filter List.length c_trigger on_files on_concepts on_scope on_dependents
       on_patterns on_breaking on_configuration].
  rewrite patterns_trigger.
  destruct (scope a); cbn [Scope_eqb negb andb Nat.b2n]; lia.
Qed.

Lemma verdict_of_raw (a : ChangeAnalysis) :
  recommendation (assessArchitecturalDecision a) = verdictOf (rawConfidence a).
Proof. reflexivity. Qed.

Lemma Scope_eqb_eq (s s' : Scope) : Scope_eqb s s' = true -> s = s'.
Proof. destruct s, s'; simpl; congruence. Qed.

Lemma Triggers_eqb_eq (u v : Triggers) : Triggers_eqb u v = true -> u = v.
Proof.
  unfold Triggers_eqb. intros H.
  repeat (apply andb_prop in H; destruct H as [H ?]).
  destruct u, v; simpl in *.
  repeat match goal with
         | E : Bool.eqb _ _ = true |- _ => apply Bool.eqb_prop in E
         | E : Scope_eqb _ _ = true |- _ => apply Scope_eqb_eq in E
         end.
  congruence.
Qed.

Lemma allTriggers_complete (t : Triggers) : In t allTriggers.
Proof.
  assert (H : existsb (Triggers_eqb t) allTriggers = true)
    by (destruct t as [[] [] [] [] [] [] []]; vm_compute; reflexivity).
  apply existsb_exists in H. destruct H as [u [Hin Heq]].
  apply Triggers_eqb_eq in Heq. subst u. exact Hin.
Qed.

(** ** Facts checked on every trigger vector *)

Lemma thresholds_check_all (t : Triggers) : thresholds_check t = true.
Proof. destruct t as [[] [] [] [] [] [] []]; vm_compute; reflexivity. Qed.

Lemma clamp_check_all (t : Triggers) : clamp_check t = true.
Proof. destruct t as [[] [] [] [] [] [] []]; vm_compute; reflexivity. Qed.

Lemma monotone_check_table :
  forallb (fun u => forallb (monotone_check u) allScored) allScored = true.
Proof. vm_compute. reflexivity. Qed.

Lemma monotone_check_all (u v : Triggers) :
  monotone_check (scoredOf u) (scoredOf v) = true.
Proof.
  pose proof monotone_check_table as H.
  rewrite forallb_forall in H.
  specialize (H (scoredOf u) (in_map scoredOf _ _ (allTriggers_complete u))).
  rewrite forallb_forall in H.
  exact (H (scoredOf v) (in_map scoredOf _ _ (allTriggers_complete v))).
Qed.

Lemma ge_0_4_exact (a : ChangeAnalysis) :
  Number.ge (rawConfidence a) Number.lit_0_4 = true <-> (0.4 <= listedSum a)%Q.
Proof.
  rewrite rawConfidence_triggers, listedSum_triggers, <- Qle_bool_iff.
  pose proof (thresholds_check_all (triggersOf a)) as H.
  unfold thresholds_check in H.
  repeat (apply andb_prop in H; destruct H as [H ?]).
  apply Bool.eqb_prop in H. rewrite H. reflexivity.
Qed.

Lemma ge_0_2_exact (a : ChangeAnalysis) :
  Number.ge (rawConfidence a) Number.lit_0_2 = true <-> (0.2 <= listedSum a)%Q.
Proof.
  rewrite rawConfidence_triggers, listedSum_triggers, <- Qle_bool_iff.
  pose proof (thresholds_check_all (triggersOf a)) as H.
  unfold thresholds_check in H.
  repeat (apply andb_prop in H; destruct H as [H ?]).
  match goal with E : Bool.eqb _ (Qle_bool 0.2 _) = true |- _ =>
    apply Bool.eqb_prop in E; rewrite E end.
  reflexivity.
Qed.

Lemma triggers_monotone (a b : ChangeAnalysis) :
  analysis_le a b -> Triggers_leb (triggersOf a) (triggersOf b) = true.
Proof.
  intros (Hf & Hc & Hs & Hp & Hd & Hb & Hg).
  unfold Triggers_leb, triggersOf; cbn [on_files on_concepts on_scope
    on_dependents on_patterns on_breaking on_configuration].
  repeat (apply andb_true_intro; split).
  - destruct (3 <=? _)%nat eqn:E; [|reflexivity].
    apply Nat.leb_le in E. apply Nat.leb_le. lia.
  - destruct (10 <=? _)%nat eqn:E; [|reflexivity].
    apply Nat.leb_le in E. apply Nat.leb_le. lia.
  - apply Nat.leb_le. exact Hs.
  - destruct (5 <=? dependentsCount a)%Z eqn:E; [|reflexivity].
    apply Z.leb_le in E. apply Z.leb_le. lia.
  - destruct (0 <? List.length (patternChanges a))%nat eqn:E; [|reflexivity].
    apply Nat.ltb_lt in E. apply Nat.ltb_lt. lia.
  - destruct (breakingChanges a); [rewrite Hb|]; reflexivity.
  - destruct (configurationChanges a); [rewrite Hg|]; reflexivity.
Qed.

Lemma reasons_fold (a : ChangeAnalysis) (l : list Criterion) (st : Locals) :
  l_reasons
    (fold_left
       (fun st c => push_reason (c_reason c a) (Number_of_Q (c_weight c)) st)
       l st)
  = (l_reasons st ++ map (fun c => c_reason c a) l)%list.
Proof.
  revert st. induction l as [|c l IH]; intros st; simpl.
  - rewrite app_nil_r. reflexivity.
  - rewrite IH. simpl. rewrite <- app_assoc. reflexivity.
Qed.


Lemma clamped_exact (a : ChangeAnalysis) :
  exists q r : Q,
    Number.to_Q (Number.min Number.lit_1_0 (rawConfidence a)) = Some q
    /\ Number.to_Q (rawConfidence a) = Some r
    /\ (q == Qmin 1 r)%Q /\ (0 <= q)%Q /\ (q <= 1)%Q.
Proof.
  rewrite rawConfidence_triggers.
  pose proof (clamp_check_all (triggersOf a)) as H.
  unfold clamp_check, in_unit_interval in H. cbv zeta in H.
  destruct (Number.to_Q (Number.min Number.lit_1_0 (rawOf (triggersOf a))))
    as [q|]; [|discriminate H].
  destruct (Number.to_Q (rawOf (triggersOf a))) as [r|];
    [|rewrite andb_false_r in H; discriminate H].
  repeat (apply andb_prop in H; destruct H as [H ?]).
  exists q, r. repeat split; try reflexivity.
  - match goal with E : Qeq_bool _ _ = true |- _ => apply Qeq_bool_iff in E; rename E into Hq end.
    destruct (Qle_bool 1 r) eqn:E.
    + apply Qle_bool_iff in E. rewrite Hq. symmetry. apply Q.min_l. exact E.
    + rewrite Hq. symmetry. apply Q.min_r.
      destruct (Qlt_le_dec r 1) as [Hlt|Hle]; [apply Qlt_le_weak; exact Hlt|].
      apply Qle_bool_iff in Hle. congruence.
  - apply Qle_bool_iff. assumption.
  - apply Qle_bool_iff. assumption.
Qed.

(** ** String methods against their specifications *)

Lemma string_app_assoc (a b c : string) : (a ++ b) ++ c = a ++ b ++ c.
Proof. induction a as [|x a IH]; simpl; [|rewrite IH]; reflexivity. Qed.

Lemma string_app_empty_r (a : string) : a ++ "" = a.
Proof. induction a as [|x a IH]; simpl; [|rewrite IH]; reflexivity. Qed.

Lemma string_length_app (a b : string) :
  String.length (a ++ b) = (String.length a + String.length b)%nat.
Proof. induction a as [|x a IH]; simpl; [|rewrite IH]; reflexivity. Qed.

Lemma startsWith_spec (s search : string) :
  startsWith s search = true <-> exists post, s = search ++ post.
Proof.
  revert s. induction search as [|c search IH]; intros s; simpl.
  - split; [intros _; exists s; reflexivity | reflexivity].
  - destruct s as [|d s].
    + split; [discriminate | intros [post H]; discriminate H].
    + rewrite andb_true_iff, Ascii.eqb_eq, IH. split.
      * intros [-> [post ->]]. exists post. reflexivity.
      * intros [post H]. injection H as -> ->. split; [reflexivity|].
        exists post. reflexivity.
Qed.

Lemma includes_spec (s search : string) :
  includes s search = true <-> IsSubstring search s.
Proof.
  unfold IsSubstring. induction s as [|d s IH].
  - cbn [includes]. rewrite orb_false_r, startsWith_spec. split.
    + intros [post H]. exists "", post. exact H.
    + intros [pre [post H]]. destruct pre; [|discriminate H].
      exists post. exact H.
  - cbn [includes]. rewrite orb_true_iff, IH, startsWith_spec. split.
    + intros [[post H] | [pre [post H]]].
      * exists "", post. exact H.
      * exists (String d pre), post. simpl. rewrite H. reflexivity.
    + intros [pre [post H]]. destruct pre as [|x pre].
      * left. exists post. exact H.
      * right. simpl in H. injection H as _ H. exists pre, post. exact H.
Qed.

Lemma substring_all (s : string) : substring 0 (String.length s) s = s.
Proof. induction s as [|c s IH]; simpl; [|rewrite IH]; reflexivity. Qed.

Lemma substring_app_drop (pre s : string) (k : nat) :
  substring (String.length pre) k (pre ++ s) = substring 0 k s.
Proof. induction pre as [|c pre IH]; simpl; [reflexivity | exact IH]. Qed.

Lemma substring_cut (s : string) (n : nat) :
  (n <= String.length s)%nat ->
  s = substring 0 n s ++ substring n (String.length s - n) s.
Proof.
  revert n. induction s as [|c s IH]; intros n Hn.
  - destruct n; reflexivity.
  - destruct n as [|n].
    + cbn [substring append]. rewrite Nat.sub_0_r.
      change (String.length (String c s)) with (S (String.length s)).
      cbn [substring]. rewrite substring_all. reflexivity.
    + simpl in Hn. cbn [substring String.length Nat.sub append].
      rewrite <- IH by lia. reflexivity.
Qed.

Lemma endsWith_spec (s search : string) :
  endsWith s search = true <-> IsSuffix search s.
Proof.
  unfold endsWith, IsSuffix. split.
  - destruct (String.length search <=? String.length s)%nat eqn:E;
      [|discriminate].
    apply Nat.leb_le in E. intros H. apply String.eqb_eq in H.
    exists (substring 0 (String.length s - String.length search) s).
    pose proof (substring_cut s (String.length s - String.length search)) as C.
    replace (String.length s - (String.length s - String.length search))%nat
      with (String.length search) in C by lia.
    rewrite H in C. apply C. lia.
  - intros [pre ->]. rewrite string_length_app.
    replace (String.length search <=? String.length pre + String.length search)%nat
      with true by (symmetry; apply Nat.leb_le; lia).
    replace (String.length pre + String.length search - String.length search)%nat
      with (String.length pre) by lia.
    rewrite substring_app_drop, substring_all. apply String.eqb_refl.
Qed.

Lemma suffix_is_substring (ind path : string) :
  IsSuffix ind path -> IsSubstring ind path.
Proof.
  intros [pre ->]. exists pre, "". rewrite string_app_empty_r. reflexivity.
Qed.

Lemma endsWith_includes (s search : string) :
  endsWith s search = true -> includes s search = true.
Proof.
  rewrite endsWith_spec, includes_spec. apply suffix_is_substring.
Qed.

(** ** Short-circuit operators on normal completions *)

Lemma js_or_normal (a b : bool) : Normal a ||| Normal b = Normal (a || b).
Proof. destruct a; reflexivity. Qed.

Lemma js_and_normal (a b : bool) : Normal a &&& Normal b = Normal (a && b).
Proof. destruct a; reflexivity. Qed.

(** A guarded read of [length] completes normally: the guard is falsy
    exactly when the read would throw. *)
Lemma guarded_length (v : option (list string)) (test : nat -> bool) :
  Normal (truthy_array v) &&& (n <- get_length v ;; Normal (test n))
  = Normal (match v with Some l => test (List.length l) | None => false end).
Proof. destruct v; reflexivity. Qed.

Lemma guarded_number (v : option Z) :
  truthy_number v && number_ge v 5
  = match v with Some z => (5 <=? z)%Z | None => false end.
Proof.
  destruct v as [z|]; [|reflexivity]. simpl.
  destruct (5 <=? z)%Z eqn:E; [|apply andb_false_r].
  apply Z.leb_le in E. destruct z; try reflexivity; lia.
Qed.

Lemma isLikelyArchitectural_normal (p : Partial.ChangeAnalysis) :
  isLikelyArchitectural p
  = Normal
      ((match Partial.affectedFiles p with
        | Some l => (3 <=? List.length l)%nat | None => false end)
       || (match Partial.affectedConcepts p with
           | Some l => (10 <=? List.length l)%nat | None => false end)
       || scope_strict_eq (Partial.scope p) project
       || (match Partial.dependentsCount p with
           | Some z => (5 <=? z)%Z | None => false end)
       || (match Partial.patternChanges p with
           | Some l => (0 <? List.length l)%nat | None => false end)
       || truthy_boolean (Partial.breakingChanges p)).
Proof.
  unfold isLikelyArchitectural.
  rewrite !guarded_length, js_and_normal, guarded_number, !js_or_normal.
  reflexivity.
Qed.

(** ** The matcher as a search through the catalog *)

Lemma isArchitecturallySignificantFile_spec (path : string) :
  isArchitecturallySignificantFile path = true
  <-> exists ind, In ind architecturalIndicators
                  /\ (IsSubstring ind path \/ IsSuffix ind path).
Proof.
  unfold isArchitecturallySignificantFile. rewrite existsb_exists.
  split; intros [ind [Hin H]]; exists ind; (split; [exact Hin|]).
  - apply orb_true_iff in H. rewrite includes_spec, endsWith_spec in H. exact H.
  - apply orb_true_iff. rewrite includes_spec, endsWith_spec. exact H.
Qed.

Lemma suffix_test_redundant (path ind : string) :
  includes path ind || endsWith path ind = includes path ind.
Proof.
  destruct (includes path ind) eqn:E; [reflexivity|]. simpl.
  destruct (endsWith path ind) eqn:F; [|reflexivity].
  apply endsWith_includes in F. congruence.
Qed.

(** ** The reasons are those of the triggered rows *)

Lemma reasons_triggered (a : ChangeAnalysis) :
  reasons (assessArchitecturalDecision a)
  = map (fun c => c_reason c a) (triggered a).
Proof.
  change (reasons (assessArchitecturalDecision a)) with (l_reasons (scored a)).
  rewrite <- runTable_scored. unfold runTable. rewrite reasons_fold.
  reflexivity.
Qed.

(** What a false answer of the fast path leaves open on a complete record:
    everything but module scope and the configuration flag is off. *)
Lemma fast_path_false_triggers (a : ChangeAnalysis) :
  isLikelyArchitectural (asPartial a) = Normal false ->
  on_files (triggersOf a) = false
  /\ on_concepts (triggersOf a) = false
  /\ on_scope (triggersOf a) <> project
  /\ on_dependents (triggersOf a) = false
  /\ on_patterns (triggersOf a) = false
  /\ on_breaking (triggersOf a) = false.
Proof.
  rewrite isLikelyArchitectural_normal. intros H. injection H as H.
  unfold asPartial in H.
  cbn [Partial.affectedFiles Partial.affectedConcepts Partial.scope
       Partial.patternChanges Partial.dependentsCount Partial.breakingChanges
       truthy_boolean scope_strict_eq] in H.
  repeat (apply orb_false_iff in H; destruct H as [H ?]).
  unfold triggersOf; cbn [on_files on_concepts on_scope on_dependents
    on_patterns on_breaking].
  repeat split; try assumption.
  intros E. rewrite E in *. discriminate.
Qed.

(** ** The reasons, criterion by criterion *)

Lemma map_filter_cons {A B : Type} (f : A -> B) (p : A -> bool) (x : A)
    (l : list A) :
  map f (filter p (x :: l))
  = ((if p x then [f x] else []) ++ map f (filter p l))%list.
Proof. simpl. destruct (p x); reflexivity. Qed.

(** The reasons, criterion by criterion. *)
Lemma reasons_by_triggers (a : ChangeAnalysis) :
  reasons (assessArchitecturalDecision a)
  = ((if on_files (triggersOf a)
      then [("Affects " ++ string_of_nat (List.length (affectedFiles a)) ++ " files")%string]
      else [])
     ++ (if on_concepts (triggersOf a)
         then [("Affects " ++ string_of_nat (List.length (affectedConcepts a))
                           ++ " semantic concepts")%string]
         else [])
     ++ match on_scope (triggersOf a) with
        | project => ["Project-wide scope detected"]
        | module => ["Module-wide scope detected"]
        | file => []
        end
     ++ (if on_dependents (triggersOf a)
         then [("Affects " ++ Number_toString (dependentsCount a) ++ " dependent files")%string]
         else [])
     ++ (if on_patterns (triggersOf a)
         then [("Introduces " ++ string_of_nat (List.length (patternChanges a))
                              ++ " pattern changes")%string]
         else [])
     ++ (if on_breaking (triggersOf a) then ["Contains breaking changes"] else [])
     ++ (if on_configuration (triggersOf a)
         then ["Modifies project configuration"] else []))%list.
Proof.
  rewrite reasons_triggered. unfold triggered, criteriaTable, triggersOf.
  rewrite !map_filter_cons.
  cbn [filter map c_trigger c_reason on_files on_concepts on_scope on_dependents
       on_patterns on_breaking on_configuration].
  rewrite patterns_trigger, app_nil_r.
  destruct (scope a); reflexivity.
Qed.

(** ** Counts and their digits *)

Lemma read_string_of_nat (n : nat) :
  option_map Nat.of_uint (NilZero.uint_of_string (string_of_nat n)) = Some n.
Proof.
  unfold string_of_nat. pose proof (DecimalNat.Unsigned.of_to n) as R.
  destruct (Nat.to_uint n) eqn:E;
    try (rewrite NilZero.usu by discriminate; simpl; f_equal; exact R).
  simpl in R. subst n. reflexivity.
Qed.

Lemma string_of_nat_inj (n m : nat) : string_of_nat n = string_of_nat m -> n = m.
Proof.
  intros H. pose proof (read_string_of_nat n) as Rn.
  rewrite H, read_string_of_nat in Rn. congruence.
Qed.

Lemma read_decimal (z : Z) : read_Z (decimal z) = Some z.
Proof.
  unfold read_Z, decimal.
  rewrite NilZero.isi.
  - simpl. f_equal. apply DecimalZ.of_to.
  - destruct z; simpl; try discriminate.
    intros H. injection H as H. exact (DecimalPos.Unsigned.to_uint_nonnil _ H).
  - destruct z; simpl; try discriminate.
    intros H. injection H as H. exact (DecimalPos.Unsigned.to_uint_nonnil _ H).
Qed.

(** Up to [MAX_SAFE_INTEGER] the text of a count is its decimal digits. *)
Lemma Number_toString_safe (z : Z) :
  (Z.abs z <= MAX_SAFE_INTEGER)%Z -> Number_toString z = decimal z.
Proof.
  intros H. unfold Number_toString.
  apply Z.leb_le in H. rewrite H. reflexivity.
Qed.

Lemma read_Number_toString (z : Z) :
  (Z.abs z <= MAX_SAFE_INTEGER)%Z -> read_Z (Number_toString z) = Some z.
Proof. intros H. rewrite Number_toString_safe by exact H. apply read_decimal. Qed.

(** Within the safe range the digit search agrees with the decimal digits;
    beyond it the text is the shortest that denotes the Number. *)
Example toString_integral_safe :
  map (fun z => toString_integral (Number.of_Z z))
      [0; 5; 12; -7; 1000; 4503599627370497; 9007199254740991;
       -9007199254740991]%Z
  = map decimal
      [0; 5; 12; -7; 1000; 4503599627370497; 9007199254740991;
       -9007199254740991]%Z.
Proof. vm_compute. reflexivity. Qed.

Example Number_toString_large :
  map Number_toString
      [9007199254740993; 18446744073709551616; 999999999999999999999;
       1000000000000000000000; -1000000000000000000000;
       123456789012345678901234567890]%Z
  = ["9007199254740992"; "18446744073709552000"; "1e+21"; "1e+21"; "-1e+21";
     "1.2345678901234568e+29"].
Proof. vm_compute. reflexivity. Qed.

(** ** The scenarios of the specification *)

Example scenario_A :
  assessArchitecturalDecision
    (mkAnalysis ["a.ts"; "b.ts"; "c.ts"] [] file [] 0 false false)
  = {| isArchitectural := false;
       confidence := Number.lit_0_3;
       reasons := ["Affects 3 files"];
       recommendation := use_project_decision |}.
Proof. vm_compute. reflexivity. Qed.

Example scenario_B :
  assessArchitecturalDecision
    (mkAnalysis ["a.ts"; "b.ts"; "c.ts"] [] project [] 0 false false)
  = {| isArchitectural := true;
       confidence := Number.of_decimal 6 10;
       reasons := ["Affects 3 files"; "Project-wide scope detected"];
       recommendation := record |}.
Proof. vm_compute. reflexivity. Qed.

Example scenario_C :
  assessArchitecturalDecision (mkAnalysis [] [] file [] 0 false false)
  = {| isArchitectural := false;
       confidence := Number.lit_0_0;
       reasons := [];
       recommendation := skip |}.
Proof. vm_compute. reflexivity. Qed.

Example scenario_D :
  assessArchitecturalDecision (mkAnalysis [] [] module [] 0 false false)
  = {| isArchitectural := false;
       confidence := Number.lit_0_15;
       reasons := ["Module-wide scope detected"];
       recommendation := skip |}.
Proof. vm_compute. reflexivity. Qed.

Example scenario_all_seven :
  assessArchitecturalDecision
    (mkAnalysis ["a.ts"; "b.ts"; "c.ts"]
       ["c0"; "c1"; "c2"; "c3"; "c4"; "c5"; "c6"; "c7"; "c8"; "c9"]
       project ["Observer"] 5 true true)
  = {| isArchitectural := true;
       confidence := Number.lit_1_0;
       reasons := ["Affects 3 files"; "Affects 10 semantic concepts";
                   "Project-wide scope detected"; "Affects 5 dependent files";
                   "Introduces 1 pattern changes"; "Contains breaking changes";
                   "Modifies project configuration"];
       recommendation := record |}.
Proof. vm_compute. reflexivity. Qed.

(** The one trigger vector on which rounding shows in the reported value:
    0.3 + 0.15 + 0.2 + 0.2 + 0.15 is 1 exactly, and the running sum is the
    binary64 just below 1. *)
Example scenario_rounded_below_one :
  (listedSum (mkAnalysis ["a.ts"; "b.ts"; "c.ts"] [] module [] 5 true true) == 1)%Q
  /\ confidence
       (assessArchitecturalDecision
          (mkAnalysis ["a.ts"; "b.ts"; "c.ts"] [] module [] 5 true true))
     = S754_finite false 9007199254740991 (-53).
Proof. split; vm_compute; reflexivity. Qed.

(** Counts beyond the safe range are written as the Number is. *)
Example scenario_large_dependents :
  reasons (assessArchitecturalDecision
             (mkAnalysis [] [] file [] 1000000000000000000000 false false))
  = ["Affects 1e+21 dependent files"]
  /\ suggestedRationale
       (extractDecisionContext
          (mkAnalysis [] [] file [] 18446744073709551616 true false))
     = "Change affects 18446744073709552000 dependent files".
Proof. split; vm_compute; reflexivity. Qed.

Example scenario_fast_path_scope_only :
  isLikelyArchitectural
    {| Partial.affectedFiles := None; Partial.affectedConcepts := None;
       Partial.scope := Some project; Partial.patternChanges := None;
       Partial.dependentsCount := None; Partial.breakingChanges := None;
       Partial.configurationChanges := None |}
  = Normal true.
Proof. reflexivity. Qed.

(* ================================================================== *)
(** * The claims *)
(* ================================================================== *)

(** C1.  The verdict is decided on the raw, unclamped sum: [isArchitectural]
    holds iff the raw sum is at least 0.4; the recommendation is [record] iff
    [isArchitectural]; it is [use_project_decision] iff the change is not
    architectural and the raw sum is at least 0.2; it is [skip] otherwise.
    The comparisons on the rounded binary64 sum decide exactly as on the
    exact sum of the listed decimal weights. *)
Theorem C1_threshold_invariant (a : ChangeAnalysis) :
  (isArchitectural (assessArchitecturalDecision a) = true
     <-> Number.ge (rawConfidence a) Number.lit_0_4 = true)
  /\ (isArchitectural (assessArchitecturalDecision a) = true
     <-> (0.4 <= listedSum a)%Q)
  /\ (recommendation (assessArchitecturalDecision a) = record
     <-> isArchitectural (assessArchitecturalDecision a) = true)
  /\ (recommendation (assessArchitecturalDecision a) = use_project_decision
     <-> isArchitectural (assessArchitecturalDecision a) = false
         /\ Number.ge (rawConfidence a) Number.lit_0_2 = true)
  /\ (recommendation (assessArchitecturalDecision a) = use_project_decision
     <-> isArchitectural (assessArchitecturalDecision a) = false
         /\ (0.2 <= listedSum a)%Q)
  /\ (recommendation (assessArchitecturalDecision a) = skip
     <-> recommendation (assessArchitecturalDecision a) <> record
         /\ recommendation (assessArchitecturalDecision a) <> use_project_decision)
  /\ (recommendation (assessArchitecturalDecision a) = skip
     <-> isArchitectural (assessArchitecturalDecision a) = false
         /\ Number.ge (rawConfidence a) Number.lit_0_2 = false)
  /\ (recommendation (assessArchitecturalDecision a) = skip
     <-> (listedSum a < 0.2)%Q).
Proof.
  pose proof (ge_0_4_exact a) as H4. pose proof (ge_0_2_exact a) as H2.
  assert (N2 : Number.ge (rawConfidence a) Number.lit_0_2 = false
               <-> (listedSum a < 0.2)%Q).
  { rewrite <- not_true_iff_false, H2. split; [apply Qnot_le_lt|apply Qlt_not_le]. }
  assert (M : (0.4 <= listedSum a)%Q -> (0.2 <= listedSum a)%Q).
  { intros L. apply Qle_trans with (2 := L). discriminate. }
  unfold assessArchitecturalDecision, rawConfidence in *.
  cbn [isArchitectural recommendation].
  destruct (Number.ge (l_confidence (scored a)) Number.lit_0_4) eqn:E4;
    destruct (Number.ge (l_confidence (scored a)) Number.lit_0_2) eqn:E2;
    repeat split; intros; try tauto; try congruence;
    try (apply H4; tauto); try (apply H2; tauto); try (apply N2; tauto);
    try (exfalso; intuition congruence);
    intuition congruence.
Qed.



(** C3.  Threshold exactness.  When the listed weights of the triggered
    criteria sum to exactly 0.4 the change is architectural and recorded;
    when they sum to exactly 0.2 the recommendation is
    [use_project_decision]; when they sum to less than 0.2 it is [skip].
    The same holds when the rounded running sum itself equals the literal
    0.4, equals the literal 0.2, or is below it. *)
Theorem C3_threshold_exactness (a : ChangeAnalysis) :
  ((listedSum a == 0.4)%Q ->
     isArchitectural (assessArchitecturalDecision a) = true
     /\ recommendation (assessArchitecturalDecision a) = record)
  /\ ((listedSum a == 0.2)%Q ->
     recommendation (assessArchitecturalDecision a) = use_project_decision)
  /\ ((listedSum a < 0.2)%Q ->
     recommendation (assessArchitecturalDecision a) = skip)
  /\ (SFeqb (rawConfidence a) Number.lit_0_4 = true ->
     isArchitectural (assessArchitecturalDecision a) = true
     /\ recommendation (assessArchitecturalDecision a) = record)
  /\ (SFeqb (rawConfidence a) Number.lit_0_2 = true ->
     recommendation (assessArchitecturalDecision a) = use_project_decision)
  /\ (SFltb (rawConfidence a) Number.lit_0_2 = true ->
     recommendation (assessArchitecturalDecision a) = skip).
Proof.
  pose proof (ge_0_4_exact a) as H4. pose proof (ge_0_2_exact a) as H2.
  pose proof (thresholds_check_all (triggersOf a)) as H.
  unfold thresholds_check in H.
  rewrite <- rawConfidence_triggers in H.
  apply andb_prop in H; destruct H as [H Hlt].
  apply andb_prop in H; destruct H as [H Heq2].
  apply andb_prop in H; destruct H as [_ Heq4].
  unfold assessArchitecturalDecision. cbn [isArchitectural recommendation].
  fold (rawConfidence a).
  assert (N4 : Number.ge (rawConfidence a) Number.lit_0_4 = false
               <-> (listedSum a < 0.4)%Q).
  { rewrite <- not_true_iff_false, H4. split; [apply Qnot_le_lt|apply Qlt_not_le]. }
  assert (N2 : Number.ge (rawConfidence a) Number.lit_0_2 = false
               <-> (listedSum a < 0.2)%Q).
  { rewrite <- not_true_iff_false, H2. split; [apply Qnot_le_lt|apply Qlt_not_le]. }
  split; [|split; [|split; [|split; [|split]]]].
  - intros E.
    assert (G : Number.ge (rawConfidence a) Number.lit_0_4 = true)
      by (apply H4; rewrite E; apply Qle_refl).
    rewrite G. split; reflexivity.
  - intros E.
    assert (G4 : Number.ge (rawConfidence a) Number.lit_0_4 = false)
      by (apply N4; rewrite E; reflexivity).
    assert (G2 : Number.ge (rawConfidence a) Number.lit_0_2 = true)
      by (apply H2; rewrite E; apply Qle_refl).
    rewrite G4, G2. reflexivity.
  - intros E.
    assert (G2 : Number.ge (rawConfidence a) Number.lit_0_2 = false)
      by (apply N2; exact E).
    assert (G4 : Number.ge (rawConfidence a) Number.lit_0_4 = false).
    { apply N4. apply Qlt_trans with (1 := E). reflexivity. }
    rewrite G4, G2. reflexivity.
  - intros E. rewrite E in Heq4. simpl in Heq4. rewrite Heq4.
    split; reflexivity.
  - intros E. rewrite E in Heq2. simpl in Heq2.
    apply andb_prop in Heq2. destruct Heq2 as [G2 G4].
    apply negb_true_iff in G4. rewrite G4, G2. reflexivity.
  - intros E. rewrite E in Hlt. simpl in Hlt.
    apply andb_prop in Hlt. destruct Hlt as [G2 G4].
    apply negb_true_iff in G2, G4. rewrite G4, G2. reflexivity.
Qed.

(** A change of ten concepts in module scope: 0.25 + 0.15. *)
Lemma C3_threshold_exactness_witness :
  (listedSum
     (mkAnalysis [] ["a"; "b"; "c"; "d"; "e"; "f"; "g"; "h"; "i"; "j"] module []
        0 false false) == 0.4)%Q
  /\ isArchitectural
       (assessArchitecturalDecision
          (mkAnalysis [] ["a"; "b"; "c"; "d"; "e"; "f"; "g"; "h"; "i"; "j"]
             module [] 0 false false)) = true
  /\ recommendation
       (assessArchitecturalDecision
          (mkAnalysis [] ["a"; "b"; "c"; "d"; "e"; "f"; "g"; "h"; "i"; "j"]
             module [] 0 false false)) = record.
Proof.
  split.
  - vm_compute. reflexivity.
  - apply (proj1 (C3_threshold_exactness
       (mkAnalysis [] ["a"; "b"; "c"; "d"; "e"; "f"; "g"; "h"; "i"; "j"] module []
          0 false false))).
    vm_compute. reflexivity.
Defined.

(** C4.  The reported confidence is [min(1.0, rawSum)], a number between 0
    and 1, and there are as many reasons as triggered criteria: at most
    seven, the two scope rows counting for at most one. *)
Theorem C4_confidence_clamped_reasons_counted (a : ChangeAnalysis) :
  confidence (assessArchitecturalDecision a)
    = Number.min Number.lit_1_0 (rawConfidence a)
  /\ (exists q r : Q,
        Number.to_Q (confidence (assessArchitecturalDecision a)) = Some q
        /\ Number.to_Q (rawConfidence a) = Some r
        /\ (q == Qmin 1 r)%Q /\ (0 <= q)%Q /\ (q <= 1)%Q)
  /\ Number.ge (confidence (assessArchitecturalDecision a)) Number.lit_0_0 = true
  /\ Number.ge Number.lit_1_0 (confidence (assessArchitecturalDecision a)) = true
  /\ List.length (reasons (assessArchitecturalDecision a))
     = List.length (triggered a)
  /\ List.length (triggered a) = countOf (triggersOf a)
  /\ (List.length (reasons (assessArchitecturalDecision a)) <= 7)%nat.
Proof.
  assert (L : List.length (reasons (assessArchitecturalDecision a))
              = List.length (triggered a)).
  { change (reasons (assessArchitecturalDecision a)) with (l_reasons (scored a)).
    rewrite <- runTable_scored. unfold runTable. rewrite length_push_fold.
    reflexivity. }
  change (confidence (assessArchitecturalDecision a))
    with (Number.min Number.lit_1_0 (rawConfidence a)).
  pose proof (clamp_check_all (triggersOf a)) as H.
  unfold clamp_check in H. cbv zeta in H.
  rewrite <- rawConfidence_triggers in H.
  apply andb_prop in H; destruct H as [H _].
  apply andb_prop in H; destruct H as [H Hle1].
  apply andb_prop in H; destruct H as [_ Hge0].
  split; [reflexivity|].
  split; [apply clamped_exact|].
  split; [exact Hge0|].
  split; [exact Hle1|].
  split; [exact L|].
  split; [apply triggered_count|].
  rewrite L, triggered_count. unfold countOf.
  destruct (on_files _), (on_concepts _), (on_scope _), (on_dependents _),
    (on_patterns _), (on_breaking _), (on_configuration _); simpl; lia.
Qed.

(** C5.  Monotonicity.  When no count, no scope and no flag of [a] exceeds
    that of [b] (in particular when [b] is [a] with one field raised across
    its threshold), the confidence of [b] is at least that of [a], raw and
    clamped, and the recommendation of [b] ranks at least as high in
    skip < use_project_decision < record. *)
Theorem C5_monotone (a b : ChangeAnalysis) :
  analysis_le a b ->
  Number.ge (confidence (assessArchitecturalDecision b))
            (confidence (assessArchitecturalDecision a)) = true
  /\ Number.ge (rawConfidence b) (rawConfidence a) = true
  /\ (rank (recommendation (assessArchitecturalDecision a))
      <= rank (recommendation (assessArchitecturalDecision b)))%nat.
Proof.
  intros Hle. apply triggers_monotone in Hle.
  pose proof (monotone_check_all (triggersOf a) (triggersOf b)) as H.
  unfold monotone_check, scoredOf in H.
  cbn [sc_triggers sc_raw sc_confidence sc_rank] in H.
  rewrite Hle in H. cbn [implb] in H.
  rewrite <- !rawConfidence_triggers in H.
  apply andb_prop in H; destruct H as [H Hrank].
  apply andb_prop in H; destruct H as [Hraw Hconf].
  rewrite !verdict_of_raw.
  split; [exact Hconf|]. split; [exact Hraw|].
  apply Nat.leb_le. exact Hrank.
Qed.

(** Scenario A against scenario B: the scope raised from file to project. *)
Lemma C5_monotone_witness :
  analysis_le (mkAnalysis ["a"; "b"; "c"] [] file [] 0 false false)
              (mkAnalysis ["a"; "b"; "c"] [] project [] 0 false false)
  /\ Number.ge
       (confidence (assessArchitecturalDecision
          (mkAnalysis ["a"; "b"; "c"] [] project [] 0 false false)))
       (confidence (assessArchitecturalDecision
          (mkAnalysis ["a"; "b"; "c"] [] file [] 0 false false))) = true
  /\ (rank (recommendation (assessArchitecturalDecision
        (mkAnalysis ["a"; "b"; "c"] [] file [] 0 false false)))
      <= rank (recommendation (assessArchitecturalDecision
        (mkAnalysis ["a"; "b"; "c"] [] project [] 0 false false))))%nat.
Proof.
  assert (H : analysis_le (mkAnalysis ["a"; "b"; "c"] [] file [] 0 false false)
                (mkAnalysis ["a"; "b"; "c"] [] project [] 0 false false)).
  { unfold analysis_le; simpl. repeat split; try lia; auto. }
  split; [exact H|].
  destruct (C5_monotone _ _ H) as (Hc & _ & Hr).
  split; [exact Hc | exact Hr].
Defined.

(** C6.  The fast path never throws, whatever properties are missing, and it
    answers true iff one of its six clauses holds: three or more affected
    files, ten or more affected concepts, project scope, five or more
    dependents, a non-empty list of pattern changes, or breaking changes; a
    missing property satisfies no clause. *)
Theorem C6_fast_path_clauses (p : Partial.ChangeAnalysis) :
  exists b : bool,
    isLikelyArchitectural p = Normal b /\ (b = true <-> fastPathClauses p).
Proof.
  rewrite isLikelyArchitectural_normal. eexists. split; [reflexivity|].
  destruct p as [fs cs sc ps dc bc cc]. unfold fastPathClauses.
  cbn [Partial.affectedFiles Partial.affectedConcepts Partial.scope
       Partial.patternChanges Partial.dependentsCount Partial.breakingChanges].
  rewrite !orb_true_iff. split.
  - intros [[[[[H|H]|H]|H]|H]|H].
    + destruct fs as [l|]; [|discriminate H].
      left. exists l. split; [reflexivity | apply Nat.leb_le; exact H].
    + destruct cs as [l|]; [|discriminate H].
      right; left. exists l. split; [reflexivity | apply Nat.leb_le; exact H].
    + destruct sc as [[]|]; try discriminate H. right; right; left. reflexivity.
    + destruct dc as [z|]; [|discriminate H].
      do 3 right; left. exists z. split; [reflexivity | apply Z.leb_le; exact H].
    + destruct ps as [l|]; [|discriminate H].
      do 4 right; left. exists l. split; [reflexivity|].
      destruct l; [discriminate H | discriminate].
    + destruct bc as [[]|]; try discriminate H. do 5 right. reflexivity.
  - intros [[l [E H]]|[[l [E H]]|[E|[[z [E H]]|[[l [E H]]|E]]]]]; subst.
    + do 5 left. apply Nat.leb_le; exact H.
    + do 4 left; right. apply Nat.leb_le; exact H.
    + do 3 left; right. reflexivity.
    + do 2 left; right. apply Z.leb_le; exact H.
    + left; right. destruct l; [contradiction H; reflexivity | reflexivity].
    + right. reflexivity.
Qed.

(** C7.  The narrative is a priority chain of which exactly one branch
    writes the text: pattern adoption whenever [patternChanges] is not
    empty, whatever the other fields (with breaking changes too, the context
    is never the breaking-change one); otherwise the project-wide branch
    when the scope is project; otherwise the breaking-change branch when
    [breakingChanges] holds; otherwise the structural-change default.  The
    opening words of the context identify the branch taken.  The counts in
    the texts are the input's: the digits of a length read back as that
    length, and [dependentsCount] is written as a template literal writes a
    Number, in decimal digits that read back as the count up to
    [MAX_SAFE_INTEGER]. *)
Theorem C7_narrative_priority_chain (a : ChangeAnalysis) :
  (patternChanges a <> [] ->
     decisionContext (extractDecisionContext a)
       = "Adopted " ++ join ", " (patternChanges a) ++ " pattern(s)"
     /\ suggestedRationale (extractDecisionContext a)
       = "Pattern detected across "
           ++ string_of_nat (List.length (affectedFiles a)) ++ " files"
     /\ decisionContext (extractDecisionContext a) <> "Breaking change introduced")
  /\ (patternChanges a = [] -> scope a = project ->
     decisionContext (extractDecisionContext a)
       = "Project-wide change affecting "
           ++ string_of_nat (List.length (affectedFiles a)) ++ " files"
     /\ suggestedRationale (extractDecisionContext a)
       = "Change impacts multiple modules and "
           ++ string_of_nat (List.length (affectedConcepts a)) ++ " concepts")
  /\ (patternChanges a = [] -> scope a <> project -> breakingChanges a = true ->
     decisionContext (extractDecisionContext a) = "Breaking change introduced"
     /\ suggestedRationale (extractDecisionContext a)
       = "Change affects " ++ Number_toString (dependentsCount a) ++ " dependent files")
  /\ (patternChanges a = [] -> scope a <> project -> breakingChanges a = false ->
     decisionContext (extractDecisionContext a)
       = "Structural change affecting "
           ++ string_of_nat (List.length (affectedFiles a)) ++ " files"
     /\ suggestedRationale (extractDecisionContext a)
       = "Change impacts "
           ++ string_of_nat (List.length (affectedConcepts a))
           ++ " semantic concepts")
  /\ branchOfContext (decisionContext (extractDecisionContext a))
     = Some (selectedBranch a)
  /\ suggestedAlternatives (extractDecisionContext a) = []
  /\ read_nat (string_of_nat (List.length (affectedFiles a)))
     = Some (List.length (affectedFiles a))
  /\ read_nat (string_of_nat (List.length (affectedConcepts a)))
     = Some (List.length (affectedConcepts a))
  /\ ((Z.abs (dependentsCount a) <= MAX_SAFE_INTEGER)%Z ->
      Number_toString (dependentsCount a) = decimal (dependentsCount a)
      /\ read_Z (Number_toString (dependentsCount a)) = Some (dependentsCount a)).
Proof.
  assert (Rf := read_string_of_nat (List.length (affectedFiles a))).
  assert (Rc := read_string_of_nat (List.length (affectedConcepts a))).
  assert (Rd : (Z.abs (dependentsCount a) <= MAX_SAFE_INTEGER)%Z ->
      Number_toString (dependentsCount a) = decimal (dependentsCount a)
      /\ read_Z (Number_toString (dependentsCount a)) = Some (dependentsCount a)).
  { intros H. split; [apply Number_toString_safe | apply read_Number_toString];
      exact H. }
  fold (read_nat (string_of_nat (List.length (affectedFiles a)))) in Rf.
  fold (read_nat (string_of_nat (List.length (affectedConcepts a)))) in Rc.
  revert Rf Rc Rd.
  generalize (read_nat (string_of_nat (List.length (affectedFiles a)))) as rf.
  generalize (read_nat (string_of_nat (List.length (affectedConcepts a)))) as rc.
  intros rc rf Rf Rc Rd.
  unfold extractDecisionContext, selectedBranch.
  destruct (patternChanges a) as [|p ps] eqn:P.
  - cbn [List.length Nat.ltb Nat.leb].
    destruct (scope a) eqn:S; cbn [Scope_eqb];
      destruct (breakingChanges a) eqn:B;
      cbn [decisionContext suggestedRationale suggestedAlternatives];
      repeat split; intros; try congruence; try reflexivity;
      try (apply Rd; assumption).
  - cbn [List.length Nat.ltb Nat.leb].
    cbn [decisionContext suggestedRationale suggestedAlternatives].
    repeat split; intros; try congruence; try reflexivity;
      try (apply Rd; assumption).
    simpl. discriminate.
Qed.

(** Two pattern changes together with a breaking change. *)
Lemma C7_narrative_priority_chain_witness :
  patternChanges
    (mkAnalysis ["a.ts"] [] module ["Observer"; "Factory"] 9 true false) <> []
  /\ decisionContext
       (extractDecisionContext
          (mkAnalysis ["a.ts"] [] module ["Observer"; "Factory"] 9 true false))
     = "Adopted Observer, Factory pattern(s)".
Proof.
  assert (H : patternChanges
    (mkAnalysis ["a.ts"] [] module ["Observer"; "Factory"] 9 true false) <> [])
    by (simpl; discriminate).
  split; [exact H|].
  exact (proj1 (proj1 (C7_narrative_priority_chain
    (mkAnalysis ["a.ts"] [] module ["Observer"; "Factory"] 9 true false)) H)).
Defined.

(** C8.  A path matches iff some indicator of the catalog occurs in it or
    ends it.  A path that ends with an indicator therefore matches under any
    directory prefix.  The comparison is on the characters as given: another
    letter case or another path separator does not match. *)
Theorem C8_path_match_rule (path : string) :
  (isArchitecturallySignificantFile path = true
     <-> exists ind, In ind architecturalIndicators
                     /\ (IsSubstring ind path \/ IsSuffix ind path))
  /\ (forall dir ind : string,
        In ind architecturalIndicators ->
        isArchitecturallySignificantFile (dir ++ ind) = true)
  /\ isArchitecturallySignificantFile "packages/web/client/package.json" = true
  /\ isArchitecturallySignificantFile "packages/web/client/PACKAGE.JSON" = false
  /\ isArchitecturallySignificantFile "src/core/engine.ts" = true
  /\ isArchitecturallySignificantFile "src\core\engine.ts" = false
  /\ isArchitecturallySignificantFile "src/utils/logger.ts" = false.
Proof.
  split; [apply isArchitecturallySignificantFile_spec|].
  split.
  { intros dir ind Hin. apply isArchitecturallySignificantFile_spec.
    exists ind. split; [exact Hin|]. right. exists dir. reflexivity. }
  repeat split; vm_compute; reflexivity.
Qed.

(** A manifest nested three directories deep. *)
Lemma C8_path_match_rule_witness :
  In "Cargo.toml" architecturalIndicators
  /\ isArchitecturallySignificantFile ("crates/engine/core/" ++ "Cargo.toml") = true.
Proof.
  assert (H : In "Cargo.toml" architecturalIndicators)
    by (simpl; right; right; left; reflexivity).
  split; [exact H|].
  exact (proj1 (proj2 (C8_path_match_rule "")) "crates/engine/core/" "Cargo.toml" H).
Defined.

(** C9.  When the fast path answers false on a complete record, only module
    scope and the configuration flag can still trigger in the scorer: every
    reason is one of those two, the listed weights sum to at most 0.30 and so
    does the rounded sum, the change is not architectural and is never
    recorded. *)
Theorem C9_fast_path_sound (a : ChangeAnalysis) :
  isLikelyArchitectural (asPartial a) = Normal false ->
  (forall r, In r (reasons (assessArchitecturalDecision a)) ->
     r = "Module-wide scope detected" \/ r = "Modifies project configuration")
  /\ (listedSum a <= 0.30)%Q
  /\ Number.ge Number.lit_0_3 (rawConfidence a) = true
  /\ isArchitectural (assessArchitecturalDecision a) = false
  /\ recommendation (assessArchitecturalDecision a) <> record.
Proof.
  intros H. apply fast_path_false_triggers in H.
  destruct H as (Hf & Hc & Hs & Hd & Hp & Hb).
  assert (R : forall r, In r (reasons (assessArchitecturalDecision a)) ->
     r = "Module-wide scope detected" \/ r = "Modifies project configuration").
  { rewrite reasons_triggered. unfold triggered, criteriaTable.
    cbn [filter c_trigger]. rewrite patterns_trigger.
    unfold triggersOf in *; cbn [on_files on_concepts on_scope on_dependents
      on_patterns on_breaking] in *.
    rewrite Hf, Hc, Hd, Hp, Hb.
    destruct (scope a); try (exfalso; apply Hs; reflexivity);
      destruct (configurationChanges a); cbn [Scope_eqb negb andb map c_reason];
      intros r Hin; simpl in Hin; intuition auto. }
  split; [exact R|].
  unfold assessArchitecturalDecision; cbn [isArchitectural recommendation].
  fold (rawConfidence a).
  rewrite listedSum_triggers, rawConfidence_triggers.
  destruct (triggersOf a) as [f c s d p b g].
  cbn [on_files on_concepts on_scope on_dependents on_patterns on_breaking] in *.
  subst f c d p b.
  destruct s; try (exfalso; apply Hs; reflexivity);
    destruct g; repeat split; vm_compute; congruence.
Qed.

(** Scenario D: module scope alone, with the configuration flag. *)
Lemma C9_fast_path_sound_witness :
  isLikelyArchitectural
    (asPartial (mkAnalysis ["a.ts"] [] module [] 0 false true)) = Normal false
  /\ isArchitectural
       (assessArchitecturalDecision
          (mkAnalysis ["a.ts"] [] module [] 0 false true)) = false
  /\ recommendation
       (assessArchitecturalDecision
          (mkAnalysis ["a.ts"] [] module [] 0 false true)) <> record.
Proof.
  assert (H : isLikelyArchitectural
    (asPartial (mkAnalysis ["a.ts"] [] module [] 0 false true)) = Normal false)
    by reflexivity.
  split; [exact H|].
  destruct (C9_fast_path_sound _ H) as (_ & _ & _ & Ha & Hr).
  split; [exact Ha | exact Hr].
Defined.

(** C10.  The suffix test adds nothing to the substring test: the matcher is
    the plain search for an indicator anywhere in the path, so a file name
    that merely embeds an indicator matches. *)
Theorem C10_suffix_test_subsumed (path : string) :
  isArchitecturallySignificantFile path = containsIndicator path
  /\ (isArchitecturallySignificantFile path = true
      <-> exists ind, In ind architecturalIndicators /\ IsSubstring ind path)
  /\ isArchitecturallySignificantFile "src/search/reindex.ts" = true
  /\ isArchitecturallySignificantFile "src/pages/index.tsx" = true
  /\ endsWith "src/pages/index.tsx" "index.ts" = false.
Proof.
  assert (E : isArchitecturallySignificantFile path = containsIndicator path).
  { unfold isArchitecturallySignificantFile, containsIndicator.
    induction architecturalIndicators as [|ind l IH]; [reflexivity|].
    cbn [existsb]. rewrite IH, suffix_test_redundant. reflexivity. }
  split; [exact E|].
  split.
  { rewrite E. unfold containsIndicator. rewrite existsb_exists.
    split; intros [ind [Hin H]]; exists ind; (split; [exact Hin|]);
      apply includes_spec; exact H. }
  repeat split; vm_compute; reflexivity.
Qed.

(* ================================================================== *)
(** * Further properties: the logger *)
(* ================================================================== *)

Lemma Logger_entry_emit {Arg : Type} (u : Logger.Use Arg) (c : Logger.Console Arg) :
  Logger.entry (Logger.use_level u) (Logger.use_env u) (Logger.use_message u)
    (Logger.use_arguments u) c
  = Logger.emit (Logger.use_env u) (Logger.use_level u) (Logger.use_message u)
      (Logger.use_arguments u) c.
Proof. destruct u as [env [] msg args]; reflexivity. Qed.

(** One use: what each stream holds afterwards. *)
Lemma Logger_step {Arg : Type} (u : Logger.Use Arg) (c : Logger.Console Arg) :
  Logger.console_log
    (Logger.entry (Logger.use_level u) (Logger.use_env u) (Logger.use_message u)
       (Logger.use_arguments u) c)
  = (Logger.console_log c
     ++ (if Logger.toStdout u then [Logger.callOf u] else []))%list
  /\ Logger.console_error
    (Logger.entry (Logger.use_level u) (Logger.use_env u) (Logger.use_message u)
       (Logger.use_arguments u) c)
  = (Logger.console_error c
     ++ (if Logger.toStderr u then [Logger.callOf u] else []))%list.
Proof.
  rewrite Logger_entry_emit.
  destruct u as [env lvl msg args].
  unfold Logger.emit, Logger.toStderr, Logger.toStdout, Logger.isEmitted,
    Logger.shouldUseStdout, Logger.callOf.
  cbn [Logger.use_env Logger.use_level Logger.use_message Logger.use_arguments].
  destruct lvl; cbn [Logger.LogLevel_eqb negb andb orb];
    destruct (Logger.env_is env "DEBUG" "true");
    destruct (Logger.isMCPServer env);
    destruct (Logger.env_is env "MCP_LOG_STREAM" "stdout");
    cbn [negb andb orb Logger.console_log Logger.console_error];
    rewrite ?app_nil_r; split; reflexivity.
Qed.

(** What the two streams hold after a run. *)
Lemma Logger_run_streams {Arg : Type} (uses : list (Logger.Use Arg))
    (c : Logger.Console Arg) :
  Logger.console_log (Logger.run uses c)
  = (Logger.console_log c
     ++ map Logger.callOf (filter Logger.toStdout uses))%list
  /\ Logger.console_error (Logger.run uses c)
  = (Logger.console_error c
     ++ map Logger.callOf (filter Logger.toStderr uses))%list.
Proof.
  revert c. induction uses as [|u uses IH]; intros c.
  - simpl. rewrite !app_nil_r. split; reflexivity.
  - unfold Logger.run in *. cbn [fold_left filter].
    destruct (IH (Logger.entry (Logger.use_level u) (Logger.use_env u)
                    (Logger.use_message u) (Logger.use_arguments u) c))
      as (Hl & He).
    destruct (Logger_step u c) as [Sl Se].
    rewrite Hl, He, Sl, Se, <- !app_assoc.
    destruct (Logger.toStdout u), (Logger.toStderr u); split; reflexivity.
Qed.

Lemma Logger_streams_split {Arg : Type} (uses : list (Logger.Use Arg)) :
  (List.length (filter Logger.toStdout uses)
   + List.length (filter Logger.toStderr uses)
   = List.length (filter Logger.isEmitted uses))%nat.
Proof.
  induction uses as [|u uses IH]; [reflexivity|].
  cbn [filter]. unfold Logger.toStderr at 1.
  destruct (Logger.isEmitted u) eqn:Em.
  - destruct (Logger.toStdout u); cbn [negb andb List.length]; lia.
  - assert (So : Logger.toStdout u = false)
      by (unfold Logger.toStdout; rewrite Em; reflexivity).
    rewrite So. cbn [negb andb]. exact IH.
Qed.

(** X1.  Every emitted message reaches exactly one stream, in the order of
    the calls, with its arguments: standard output receives the calls of the
    uses routed to it, standard error those of the other emitted uses, and
    what the streams held before stays in front. *)
Theorem Logger_run_partition {Arg : Type} (uses : list (Logger.Use Arg))
    (c : Logger.Console Arg) :
  Logger.console_log (Logger.run uses c)
  = (Logger.console_log c
     ++ map Logger.callOf (filter Logger.toStdout uses))%list
  /\ Logger.console_error (Logger.run uses c)
  = (Logger.console_error c
     ++ map Logger.callOf (filter Logger.toStderr uses))%list
  /\ (List.length (filter Logger.toStdout uses)
      + List.length (filter Logger.toStderr uses)
      = List.length (filter Logger.isEmitted uses))%nat.
Proof.
  destruct (Logger_run_streams uses c) as [Hl He].
  split; [exact Hl|]. split; [exact He|]. apply Logger_streams_split.
Qed.

(** X2.  While the process is a server that has not opted in to logging on
    standard output, no entry point writes to standard output: whatever is
    logged, [console.log] receives nothing and every emitted message goes to
    [console.error]. *)
Theorem Logger_server_keeps_stdout_clean {Arg : Type}
    (uses : list (Logger.Use Arg)) (c : Logger.Console Arg) :
  (forall u, In u uses -> Logger.keepsStdoutClean (Logger.use_env u) = true) ->
  Logger.console_log (Logger.run uses c) = Logger.console_log c
  /\ Logger.console_error (Logger.run uses c)
     = (Logger.console_error c
        ++ map Logger.callOf (filter Logger.isEmitted uses))%list.
Proof.
  revert c. induction uses as [|u uses IH]; intros c H.
  - simpl. rewrite app_nil_r. split; reflexivity.
  - unfold Logger.run in *. cbn [fold_left filter].
    assert (Hu : Logger.keepsStdoutClean (Logger.use_env u) = true)
      by (apply H; left; reflexivity).
    destruct (IH (Logger.entry (Logger.use_level u) (Logger.use_env u)
                    (Logger.use_message u) (Logger.use_arguments u) c))
      as (Hl & He).
    { intros v Hv. apply H. right. exact Hv. }
    destruct (Logger_step u c) as [Sl Se].
    rewrite Hl, He, Sl, Se.
    unfold Logger.keepsStdoutClean in Hu. apply andb_prop in Hu.
    destruct Hu as [Hm Ho]. apply negb_true_iff in Ho.
    assert (So : Logger.toStdout u = false).
    { unfold Logger.toStdout. rewrite Hm, Ho. cbn [negb orb].
      apply andb_false_r. }
    unfold Logger.toStderr. rewrite So. cbn [negb]. rewrite andb_true_r.
    split; [apply app_nil_r|].
    destruct (Logger.isEmitted u); cbn [map app];
      rewrite <- ?app_assoc; reflexivity.
Qed.

(** A server environment without opt-in, and three uses under it. *)
Lemma Logger_server_keeps_stdout_clean_witness :
  Logger.console_log
    (Logger.run
       [ {| Logger.use_env := fun name =>
              if String.eqb name "MCP_SERVER" then Some "true" else None;
            Logger.use_level := Logger.INFO;
            Logger.use_message := "ready";
            Logger.use_arguments := [1%nat] |};
         {| Logger.use_env := fun name =>
              if String.eqb name "MCP_SERVER" then Some "true" else None;
            Logger.use_level := Logger.DEBUG;
            Logger.use_message := "tick";
            Logger.use_arguments := [] |} ]
       {| Logger.console_log := []; Logger.console_error := [] |}) = [].
Proof.
  refine (proj1 (Logger_server_keeps_stdout_clean _ _ _)).
  intros u [<-|[<-|[]]]; reflexivity.
Defined.

(** X3.  The level tag is unambiguous: two formatted messages are equal only
    for the same level and the same message. *)
Theorem Logger_formatMessage_injective (l l' : Logger.LogLevel) (m m' : string) :
  Logger.formatMessage l m = Logger.formatMessage l' m' -> l = l' /\ m = m'.
Proof.
  unfold Logger.formatMessage.
  destruct l, l'; simpl; intros H; try discriminate H;
    injection H as H; (split; [reflexivity | exact H]).
Qed.

Lemma Logger_formatMessage_injective_witness :
  Logger.INFO = Logger.INFO /\ "started" = "started".
Proof.
  exact (Logger_formatMessage_injective Logger.INFO Logger.INFO
           "started" "started" eq_refl).
Defined.

(** X4.  [debug] is silent unless the variable DEBUG is exactly "true" at
    the time of the call: it leaves the console as it was iff DEBUG is unset
    or holds anything else. *)
Theorem Logger_debug_gated {Arg : Type} (env : Logger.Env) (message : string)
    (args : list Arg) (c : Logger.Console Arg) :
  Logger.debug env message args c = c <-> env "DEBUG" <> Some "true".
Proof.
  pose proof (Logger_step
    {| Logger.use_env := env; Logger.use_level := Logger.DEBUG;
       Logger.use_message := message; Logger.use_arguments := args |} c) as S.
  cbn [Logger.use_env Logger.use_level Logger.use_message Logger.use_arguments
       Logger.entry] in S.
  unfold Logger.toStderr, Logger.toStdout, Logger.isEmitted in S.
  cbn [Logger.use_env Logger.use_level Logger.LogLevel_eqb negb orb andb] in S.
  destruct S as [Sl Se].
  assert (G : Logger.env_is env "DEBUG" "true" = true <-> env "DEBUG" = Some "true").
  { unfold Logger.env_is. destruct (env "DEBUG") as [v|].
    - rewrite String.eqb_eq. split; congruence.
    - split; discriminate. }
  split.
  - intros H E. apply G in E. rewrite H, E in Sl, Se.
    cbn [andb] in Sl, Se.
    apply (f_equal (@List.length _)) in Sl, Se.
    rewrite length_app in Sl, Se.
    destruct (negb (Logger.isMCPServer env)
              || Logger.env_is env "MCP_LOG_STREAM" "stdout");
      simpl in Sl, Se; lia.
  - intros N. unfold Logger.debug, Logger.emit.
    destruct (Logger.env_is env "DEBUG" "true") eqn:E; [|reflexivity].
    exfalso. apply N, G. reflexivity.
Qed.

(** X5.  An error is never lost and never written to standard output,
    whatever the environment: every use of [error] has its call in
    [console.error], and nothing [console.log] receives carries the tag of
    an error. *)
Theorem Logger_errors_go_to_stderr {Arg : Type} (uses : list (Logger.Use Arg))
    (c : Logger.Console Arg) :
  (forall u, In u uses -> Logger.use_level u = Logger.ERROR ->
     In (Logger.callOf u) (Logger.console_error (Logger.run uses c)))
  /\ (forall call, In call (Logger.console_log (Logger.run uses c)) ->
     In call (Logger.console_log c)
     \/ startsWith (Logger.call_message call) "[ERROR] " = false).
Proof.
  destruct (Logger_run_streams uses c) as [Hl He]. split.
  - intros u Hu Lv. rewrite He. apply in_or_app. right.
    apply in_map, filter_In. split; [exact Hu|].
    unfold Logger.toStderr, Logger.toStdout, Logger.isEmitted.
    rewrite Lv. reflexivity.
  - intros call Hc. rewrite Hl in Hc. apply in_app_or in Hc.
    destruct Hc as [Hc|Hc]; [left; exact Hc|right].
    apply in_map_iff in Hc. destruct Hc as [u [<- Hu]].
    apply filter_In in Hu. destruct Hu as [_ Hu].
    unfold Logger.toStdout in Hu.
    apply andb_prop in Hu. destruct Hu as [Hu _].
    apply andb_prop in Hu. destruct Hu as [_ Hu].
    unfold Logger.callOf, Logger.formatMessage. cbn [Logger.call_message].
    destruct (Logger.use_level u); try reflexivity; discriminate Hu.
Qed.

Lemma Logger_errors_go_to_stderr_witness :
  In (Logger.callOf
        {| Logger.use_env := fun _ => Some "stdout";
           Logger.use_level := Logger.ERROR;
           Logger.use_message := "boom";
           Logger.use_arguments := [7%nat] |})
     (Logger.console_error
        (Logger.run
           [ {| Logger.use_env := fun _ => Some "stdout";
                Logger.use_level := Logger.ERROR;
                Logger.use_message := "boom";
                Logger.use_arguments := [7%nat] |} ]
           {| Logger.console_log := []; Logger.console_error := [] |})).
Proof.
  refine (proj1 (Logger_errors_go_to_stderr _ _) _ _ _).
  - left. reflexivity.
  - reflexivity.
Defined.

(* ================================================================== *)
(** * Further properties: the detector *)
(* ================================================================== *)

Lemma count_check_all (t : Triggers) : count_check t = true.
Proof. destruct t as [[] [] [] [] [] [] []]; vm_compute; reflexivity. Qed.

Lemma quiet_check_all (t : Triggers) : quiet_check t = true.
Proof. destruct t as [[] [] [] [] [] [] []]; vm_compute; reflexivity. Qed.

Lemma accuracy_check_all (t : Triggers) : accuracy_check t = true.
Proof. destruct t as [[] [] [] [] [] [] []]; vm_compute; reflexivity. Qed.

Lemma fast_check_all (t : Triggers) : fast_check t = true.
Proof. destruct t as [[] [] [] [] [] [] []]; vm_compute; reflexivity. Qed.

Lemma reasons_count (a : ChangeAnalysis) :
  List.length (reasons (assessArchitecturalDecision a)) = countOf (triggersOf a).
Proof. rewrite reasons_triggered, length_map. apply triggered_count. Qed.

Lemma isArchitectural_raw (a : ChangeAnalysis) :
  isArchitectural (assessArchitecturalDecision a)
  = Number.ge (rawOf (triggersOf a)) Number.lit_0_4.
Proof. rewrite <- rawConfidence_triggers. reflexivity. Qed.

Lemma recommendation_raw (a : ChangeAnalysis) :
  recommendation (assessArchitecturalDecision a)
  = verdictOf (rawOf (triggersOf a)).
Proof. rewrite <- rawConfidence_triggers. reflexivity. Qed.

(** X6.  No single criterion makes a change architectural, and any three
    do: an architectural verdict comes with at least two reasons, three or
    more reasons always give [record], and a recommendation other than
    [skip] comes with at least one reason. *)
Theorem record_needs_two_reasons (a : ChangeAnalysis) :
  (isArchitectural (assessArchitecturalDecision a) = true ->
     (2 <= List.length (reasons (assessArchitecturalDecision a)))%nat)
  /\ ((3 <= List.length (reasons (assessArchitecturalDecision a)))%nat ->
     isArchitectural (assessArchitecturalDecision a) = true
     /\ recommendation (assessArchitecturalDecision a) = record)
  /\ (recommendation (assessArchitecturalDecision a) <> skip ->
     (1 <= List.length (reasons (assessArchitecturalDecision a)))%nat).
Proof.
  rewrite reasons_count, isArchitectural_raw, recommendation_raw.
  pose proof (count_check_all (triggersOf a)) as H.
  unfold count_check in H.
  apply andb_prop in H; destruct H as [H H1].
  apply andb_prop in H; destruct H as [H2 H3].
  unfold verdictOf.
  split; [|split].
  - intros E. rewrite E in H2. apply Nat.leb_le. exact H2.
  - intros L. apply Nat.leb_le in L. rewrite L in H3. cbn [implb] in H3.
    rewrite H3. split; reflexivity.
  - intros N.
    destruct (Number.ge (rawOf (triggersOf a)) Number.lit_0_2) eqn:E2.
    + apply Nat.leb_le. exact H1.
    + destruct (Number.ge (rawOf (triggersOf a)) Number.lit_0_4) eqn:E4.
      * cbn [implb] in H2. apply Nat.leb_le in H2. lia.
      * contradiction N. reflexivity.
Qed.

Lemma record_needs_two_reasons_witness :
  isArchitectural
    (assessArchitecturalDecision
       (mkAnalysis ["a.ts"; "b.ts"; "c.ts"] [] project [] 0 false false)) = true
  /\ (2 <= List.length (reasons (assessArchitecturalDecision
        (mkAnalysis ["a.ts"; "b.ts"; "c.ts"] [] project [] 0 false false))))%nat.
Proof.
  assert (H : isArchitectural
    (assessArchitecturalDecision
       (mkAnalysis ["a.ts"; "b.ts"; "c.ts"] [] project [] 0 false false)) = true)
    by (vm_compute; reflexivity).
  split; [exact H|].
  exact (proj1 (record_needs_two_reasons _) H).
Defined.

(** X7.  The reported confidence is the exact score up to rounding: its
    value differs from [min(1, sum of the listed weights of the triggered
    criteria)] by at most 10^-15. *)
Theorem confidence_accurate (a : ChangeAnalysis) :
  exists q : Q,
    Number.to_Q (confidence (assessArchitecturalDecision a)) = Some q
    /\ (Qabs (q - Qmin 1 (listedSum a)) <= 1 # 1000000000000000)%Q.
Proof.
  change (confidence (assessArchitecturalDecision a))
    with (Number.min Number.lit_1_0 (rawConfidence a)).
  rewrite rawConfidence_triggers, listedSum_triggers.
  pose proof (accuracy_check_all (triggersOf a)) as H.
  unfold accuracy_check in H.
  destruct (Number.to_Q (Number.min Number.lit_1_0 (rawOf (triggersOf a))))
    as [q|]; [|discriminate H].
  exists q. split; [reflexivity|]. apply Qle_bool_iff. exact H.
Qed.

(** X8.  The scorer reads the three lists through their lengths only: two
    inputs with the same counts, scope and flags get the same assessment,
    whatever the files, concepts and patterns are. *)
Theorem assessment_depends_on_counts (a b : ChangeAnalysis) :
  same_counts a b ->
  assessArchitecturalDecision a = assessArchitecturalDecision b.
Proof.
  intros (Hf & Hc & Hs & Hp & Hd & Hb & Hg).
  unfold assessArchitecturalDecision. unfold_criteria.
  rewrite Hf, Hc, Hs, Hp, Hd, Hb, Hg. reflexivity.
Qed.

Lemma assessment_depends_on_counts_witness :
  assessArchitecturalDecision
    (mkAnalysis ["a.ts"; "b.ts"; "c.ts"] ["User"] module ["Observer"] 6 false true)
  = assessArchitecturalDecision
    (mkAnalysis ["x.rs"; "y.rs"; "z.rs"] ["Cart"] module ["Visitor"] 6 false true).
Proof.
  apply assessment_depends_on_counts.
  unfold same_counts; simpl. repeat split; reflexivity.
Defined.

Lemma skip_iff_quiet (a : ChangeAnalysis) :
  recommendation (assessArchitecturalDecision a) = skip
  <-> quiet (triggersOf a) = true.
Proof.
  rewrite recommendation_raw.
  pose proof (quiet_check_all (triggersOf a)) as H.
  unfold quiet_check in H. apply andb_prop in H. destruct H as [H1 H2].
  apply Bool.eqb_prop in H1. rewrite <- H1. unfold verdictOf.
  destruct (Number.ge (rawOf (triggersOf a)) Number.lit_0_4);
    destruct (Number.ge (rawOf (triggersOf a)) Number.lit_0_2);
    simpl in *; split; congruence.
Qed.

(** X9.  The recommendation is [skip] exactly when there is no reason at
    all, or the single reason is module scope, or the single reason is the
    configuration change. *)
Theorem skip_iff_weak_reasons (a : ChangeAnalysis) :
  recommendation (assessArchitecturalDecision a) = skip
  <-> reasons (assessArchitecturalDecision a) = []
      \/ reasons (assessArchitecturalDecision a) = ["Module-wide scope detected"]
      \/ reasons (assessArchitecturalDecision a)
         = ["Modifies project configuration"].
Proof.
  rewrite skip_iff_quiet, reasons_by_triggers. unfold quiet.
  generalize (string_of_nat (List.length (affectedFiles a))) as n1.
  generalize (string_of_nat (List.length (affectedConcepts a))) as n2.
  generalize (Number_toString (dependentsCount a)) as n3.
  generalize (string_of_nat (List.length (patternChanges a))) as n4.
  intros n4 n3 n2 n1.
  destruct (triggersOf a) as [f c s d p b g].
  cbn [on_files on_concepts on_scope on_dependents on_patterns on_breaking
       on_configuration].
  destruct f, c, s, d, p, b, g; cbn [negb andb app]; split;
    try discriminate; try (intros _; tauto);
    intros [H|[H|H]]; try reflexivity; simpl in H; discriminate H.
Qed.

Lemma fast_path_triggers (a : ChangeAnalysis) :
  isLikelyArchitectural (asPartial a) = Normal (fast (triggersOf a)).
Proof. rewrite isLikelyArchitectural_normal. reflexivity. Qed.

(** X10.  A positive fast path rules out [skip]: when the fast path answers
    true on a complete record, the scorer finds a raw sum of at least 0.2, a
    reason to give, and recommends [record] or [use_project_decision]. *)
Theorem fast_path_true_never_skipped (a : ChangeAnalysis) :
  isLikelyArchitectural (asPartial a) = Normal true ->
  recommendation (assessArchitecturalDecision a) <> skip
  /\ Number.ge (rawConfidence a) Number.lit_0_2 = true
  /\ (1 <= List.length (reasons (assessArchitecturalDecision a)))%nat.
Proof.
  rewrite fast_path_triggers. intros H. injection H as H.
  pose proof (fast_check_all (triggersOf a)) as F.
  unfold fast_check in F. rewrite H in F. cbn [implb] in F.
  apply andb_prop in F. destruct F as [F1 F2].
  rewrite reasons_count, recommendation_raw, rawConfidence_triggers.
  split; [|split; [exact F1 | apply Nat.leb_le; exact F2]].
  unfold verdictOf. rewrite F1.
  destruct (Number.ge (rawOf (triggersOf a)) Number.lit_0_4); discriminate.
Qed.

Lemma fast_path_true_never_skipped_witness :
  recommendation
    (assessArchitecturalDecision (mkAnalysis [] [] file [] 0 true false)) <> skip.
Proof.
  refine (proj1 (fast_path_true_never_skipped
                   (mkAnalysis [] [] file [] 0 true false) _)).
  reflexivity.
Defined.

(** X11.  Filling in missing properties never withdraws a positive answer of
    the fast path: if it answers true on a partial record, it answers true
    on every record that has the same properties and more; so a false answer
    on the fuller record means false on the partial one. *)
Theorem fast_path_monotone_in_information (p q : Partial.ChangeAnalysis) :
  fills p q ->
  (isLikelyArchitectural p = Normal true -> isLikelyArchitectural q = Normal true)
  /\ (isLikelyArchitectural q = Normal false ->
      isLikelyArchitectural p = Normal false).
Proof.
  intros (Hf & Hc & Hs & Hp & Hd & Hb).
  assert (M : isLikelyArchitectural p = Normal true ->
              isLikelyArchitectural q = Normal true).
  { rewrite !isLikelyArchitectural_normal. intros H. injection H as H.
    f_equal. rewrite !orb_true_iff in *.
    destruct H as [[[[[H|H]|H]|H]|H]|H].
    - destruct (Partial.affectedFiles p) as [l|]; [|discriminate H].
      rewrite (Hf l eq_refl). tauto.
    - destruct (Partial.affectedConcepts p) as [l|]; [|discriminate H].
      rewrite (Hc l eq_refl). tauto.
    - destruct (Partial.scope p) as [x|]; [|discriminate H].
      rewrite (Hs x eq_refl). tauto.
    - destruct (Partial.dependentsCount p) as [z|]; [|discriminate H].
      rewrite (Hd z eq_refl). tauto.
    - destruct (Partial.patternChanges p) as [l|]; [|discriminate H].
      rewrite (Hp l eq_refl). tauto.
    - destruct (Partial.breakingChanges p) as [b|]; [|discriminate H].
      rewrite (Hb b eq_refl). tauto. }
  split; [exact M|].
  intros Hq. pose proof (isLikelyArchitectural_normal p) as Np.
  match type of Np with _ = Normal ?b => destruct b end; [|exact Np].
  rewrite (M Np) in Hq. discriminate Hq.
Qed.

(** Scope alone, then the same record with its files known. *)
Lemma fast_path_monotone_in_information_witness :
  isLikelyArchitectural
    {| Partial.affectedFiles := Some ["a.ts"]; Partial.affectedConcepts := None;
       Partial.scope := Some project; Partial.patternChanges := None;
       Partial.dependentsCount := None; Partial.breakingChanges := None;
       Partial.configurationChanges := None |} = Normal true.
Proof.
  refine (proj1 (fast_path_monotone_in_information
    {| Partial.affectedFiles := None; Partial.affectedConcepts := None;
       Partial.scope := Some project; Partial.patternChanges := None;
       Partial.dependentsCount := None; Partial.breakingChanges := None;
       Partial.configurationChanges := None |} _ _) _).
  - unfold fills; simpl. repeat split; intros; try discriminate; assumption.
  - reflexivity.
Defined.

(** X12.  The fast path never consults [configurationChanges] and does not
    tell module scope from file scope or from a missing scope: changing them
    leaves its answer as it is. *)
Theorem fast_path_ignores_configuration
    (fs cs ps : option (list string)) (sc sc' : option Scope) (dc : option Z)
    (bc cc cc' : option bool) :
  sc <> Some project -> sc' <> Some project ->
  isLikelyArchitectural
    {| Partial.affectedFiles := fs; Partial.affectedConcepts := cs;
       Partial.scope := sc; Partial.patternChanges := ps;
       Partial.dependentsCount := dc; Partial.breakingChanges := bc;
       Partial.configurationChanges := cc |}
  = isLikelyArchitectural
    {| Partial.affectedFiles := fs; Partial.affectedConcepts := cs;
       Partial.scope := sc'; Partial.patternChanges := ps;
       Partial.dependentsCount := dc; Partial.breakingChanges := bc;
       Partial.configurationChanges := cc' |}.
Proof.
  intros N N'. rewrite !isLikelyArchitectural_normal.
  cbn [Partial.affectedFiles Partial.affectedConcepts Partial.scope
       Partial.patternChanges Partial.dependentsCount Partial.breakingChanges].
  replace (scope_strict_eq sc project) with false
    by (destruct sc as [[]|]; try reflexivity; contradiction N; reflexivity).
  replace (scope_strict_eq sc' project) with false
    by (destruct sc' as [[]|]; try reflexivity; contradiction N'; reflexivity).
  reflexivity.
Qed.

Lemma fast_path_ignores_configuration_witness :
  isLikelyArchitectural
    {| Partial.affectedFiles := None; Partial.affectedConcepts := None;
       Partial.scope := Some module; Partial.patternChanges := None;
       Partial.dependentsCount := Some 2%Z; Partial.breakingChanges := None;
       Partial.configurationChanges := Some true |}
  = isLikelyArchitectural
    {| Partial.affectedFiles := None; Partial.affectedConcepts := None;
       Partial.scope := None; Partial.patternChanges := None;
       Partial.dependentsCount := Some 2%Z; Partial.breakingChanges := None;
       Partial.configurationChanges := None |}.
Proof.
  apply fast_path_ignores_configuration; discriminate.
Defined.

Lemma substring_extends (ind path pre post : string) :
  IsSubstring ind path -> IsSubstring ind (pre ++ path ++ post).
Proof.
  intros [u [v ->]]. exists (pre ++ u), (v ++ post).
  rewrite !string_app_assoc. reflexivity.
Qed.

(** X13.  A match survives any extension of the path: if a path is
    significant, so is every path that contains it, whatever comes before or
    after; in particular everything below a significant directory. *)
Theorem significant_path_extends (path pre post : string) :
  isArchitecturallySignificantFile path = true ->
  isArchitecturallySignificantFile (pre ++ path ++ post) = true.
Proof.
  rewrite !isArchitecturallySignificantFile_spec.
  intros [ind [Hin H]]. exists ind. split; [exact Hin|]. left.
  apply substring_extends.
  destruct H as [H|H]; [exact H | apply suffix_is_substring; exact H].
Qed.

Lemma significant_path_extends_witness :
  isArchitecturallySignificantFile ("repo/" ++ "src/core/" ++ "util/io.ts") = true.
Proof.
  apply significant_path_extends. reflexivity.
Defined.

(** X14.  When the fast path answers false on a complete record, the
    narrative is the default one: the context is the structural change over
    the affected files and the rationale cites the affected concepts. *)
Theorem fast_path_false_default_narrative (a : ChangeAnalysis) :
  isLikelyArchitectural (asPartial a) = Normal false ->
  decisionContext (extractDecisionContext a)
    = "Structural change affecting "
        ++ string_of_nat (List.length (affectedFiles a)) ++ " files"
  /\ suggestedRationale (extractDecisionContext a)
    = "Change impacts "
        ++ string_of_nat (List.length (affectedConcepts a)) ++ " semantic concepts".
Proof.
  intros H. apply fast_path_false_triggers in H.
  destruct H as (_ & _ & Hs & _ & Hp & Hb).
  unfold triggersOf in *. cbn [on_scope on_patterns on_breaking] in *.
  unfold extractDecisionContext. rewrite Hp, Hb.
  destruct (scope a); [| |contradiction Hs; reflexivity]; split; reflexivity.
Qed.

Lemma fast_path_false_default_narrative_witness :
  decisionContext
    (extractDecisionContext (mkAnalysis ["a.ts"; "b.ts"] [] module [] 1 false true))
  = "Structural change affecting 2 files".
Proof.
  refine (proj1 (fast_path_false_default_narrative
    (mkAnalysis ["a.ts"; "b.ts"] [] module [] 1 false true) _)).
  reflexivity.
Defined.

Lemma join_contains (sep x : string) (l : list string) :
  In x l -> IsSubstring x (join sep l).
Proof.
  induction l as [|y l IH]; intros H; [contradiction H|].
  destruct H as [->|H].
  - destruct l as [|z l].
    + exists "", "". simpl. rewrite string_app_empty_r. reflexivity.
    + exists "", (sep ++ join sep (z :: l)). reflexivity.
  - destruct l as [|z l]; [contradiction H|].
    destruct (IH H) as [u [v E]].
    exists (y ++ sep ++ u), v.
    change (join sep (y :: z :: l)) with (y ++ sep ++ join sep (z :: l)).
    rewrite E, !string_app_assoc. reflexivity.
Qed.

(** X15.  Every pattern change is named in the decision context: each
    element of [patternChanges] occurs in the context the narrative
    builds. *)
Theorem patterns_named_in_context (a : ChangeAnalysis) (pattern : string) :
  In pattern (patternChanges a) ->
  IsSubstring pattern (decisionContext (extractDecisionContext a)).
Proof.
  intros H. unfold extractDecisionContext.
  destruct (patternChanges a) as [|p ps] eqn:P; [contradiction H|].
  cbn [List.length Nat.ltb Nat.leb decisionContext].
  change ("Adopted " ++ join ", " (p :: ps) ++ " pattern(s)")
    with ("Adopted " ++ (join ", " (p :: ps) ++ " pattern(s)")).
  apply substring_extends. apply join_contains. exact H.
Qed.

Lemma patterns_named_in_context_witness :
  IsSubstring "Factory"
    (decisionContext
       (extractDecisionContext
          (mkAnalysis [] [] file ["Observer"; "Factory"] 0 false false))).
Proof.
  apply patterns_named_in_context. simpl. right. left. reflexivity.
Defined.

Lemma string_app_inv_tail (a b c : string) : a ++ c = b ++ c -> a = b.
Proof.
  revert b. induction a as [|x a IH]; intros [|y b] H.
  - reflexivity.
  - apply (f_equal String.length) in H. simpl in H.
    rewrite string_length_app in H. lia.
  - apply (f_equal String.length) in H. simpl in H.
    rewrite string_length_app in H. lia.
  - simpl in H. injection H as -> H. f_equal. apply IH. exact H.
Qed.

(** X16.  The file count can be read off the reasons: two inputs that both
    touch three files or more and get the same reasons touch the same number
    of files. *)
Theorem reasons_determine_file_count (a b : ChangeAnalysis) :
  (3 <= List.length (affectedFiles a))%nat ->
  (3 <= List.length (affectedFiles b))%nat ->
  reasons (assessArchitecturalDecision a) = reasons (assessArchitecturalDecision b) ->
  List.length (affectedFiles a) = List.length (affectedFiles b).
Proof.
  intros Ha Hb H. rewrite !reasons_by_triggers in H.
  unfold triggersOf in H. cbn [on_files] in H.
  apply Nat.leb_le in Ha, Hb. rewrite Ha, Hb in H.
  cbn [app] in H. injection H as H _.
  apply string_of_nat_inj.
  apply (string_app_inv_tail _ _ " files"). exact H.
Qed.

Lemma reasons_determine_file_count_witness :
  List.length (affectedFiles
    (mkAnalysis ["a.ts"; "b.ts"; "c.ts"] [] file [] 0 false false))
  = List.length (affectedFiles
    (mkAnalysis ["x.rs"; "y.rs"; "z.rs"] [] file [] 0 false false)).
Proof.
  apply reasons_determine_file_count.
  - simpl. lia.
  - simpl. lia.
  - reflexivity.
Defined.
